(** * TurbuStat: [turbustat/statistics/base_statistic.py]

    A shallow embedding of [BaseStatisticMixIn], the attribute-validation
    and unit-equivalency core shared by the statistics classes, together
    with the small part of numpy and astropy.units it calls into.

    Numeric convention: binary64 values are idealised as exact rationals
    extended with the IEEE special values (infinities and NaN); rounding,
    overflow and the sign of zero are not modelled (zero counts as +0). *)

From Stdlib Require Import ZArith QArith Qabs List String Bool Lia Lqa.
Import ListNotations.

Local Open Scope string_scope.
Local Open Scope Q_scope.

(* ================================================================== *)
(** * Floating-point values *)
(* ================================================================== *)

Module Float.

Inductive fnum : Type :=
| Fin (q : Q)
| Inf (neg : bool)
| NaN.

Definition Qzero (q : Q) : bool := Qeq_bool q 0.

Definition Qneg (q : Q) : bool :=
  match Qcompare q 0 with Lt => true | _ => false end.

(** x * y *)
Definition fmul (x y : fnum) : fnum :=
  match x, y with
  | NaN, _ | _, NaN => NaN
  | Fin a, Fin b => Fin (a * b)
  | Fin a, Inf t => if Qzero a then NaN else Inf (xorb (Qneg a) t)
  | Inf s, Fin b => if Qzero b then NaN else Inf (xorb s (Qneg b))
  | Inf s, Inf t => Inf (xorb s t)
  end.

(** x / y, numpy semantics: a zero divisor gives inf or nan, no exception *)
Definition fdiv (x y : fnum) : fnum :=
  match x, y with
  | NaN, _ | _, NaN => NaN
  | Fin a, Fin b =>
      if Qzero b then (if Qzero a then NaN else Inf (Qneg a))
      else Fin (a / b)
  | Fin _, Inf _ => Fin 0
  | Inf s, Fin b => Inf (xorb s (Qneg b))
  | Inf _, Inf _ => NaN
  end.

(** abs(x) *)
Definition fabs (x : fnum) : fnum :=
  match x with
  | Fin q => Fin (Qabs q)
  | Inf _ => Inf false
  | NaN => NaN
  end.



(** Equality of values up to the representation of the rational. *)
Definition feq (x y : fnum) : Prop :=
  match x, y with
  | Fin a, Fin b => a == b
  | Inf s, Inf t => s = t
  | NaN, NaN => True
  | _, _ => False
  end.

End Float.
Export Float.

Infix "=f=" := feq (at level 70, no associativity).

(* ================================================================== *)
(** * Python exceptions and the execution monad *)
(* ================================================================== *)

Inductive exn_class : Type :=
| TypeError
| UnitConversionError
| KeyError
| AttributeError
| ValueError
| IndexError.

Record exn : Type := Exception { exn_cls : exn_class; exn_msg : string }.

Inductive result (A : Type) : Type :=
| Ok (a : A)
| Err (e : exn).
Arguments Ok {A} a.
Arguments Err {A} e.

(** An attribute assignment that happened before an exception stays in
    place, so a computation returns its outcome together with the object
    as it is afterwards. *)
Definition M (S A : Type) : Type := S -> result A * S.

Definition ret {S A} (a : A) : M S A := fun s => (Ok a, s).

Definition bind {S A B} (c : M S A) (k : A -> M S B) : M S B :=
  fun s => match c s with
           | (Ok a, s') => k a s'
           | (Err e, s') => (Err e, s')
           end.

Definition raise {S A} (c : exn_class) (msg : string) : M S A :=
  fun s => (Err (Exception c msg), s).

Definition lift {S A} (r : result A) : M S A := fun s => (r, s).

Declare Scope py_scope.
Delimit Scope py_scope with py.
Notation "x <- c ;; k" := (bind c (fun x => k))
  (at level 100, c at next level, right associativity) : py_scope.
Notation "c ;;; k" := (bind c (fun _ => k))
  (at level 100, right associativity) : py_scope.
Local Open Scope py_scope.

(* ================================================================== *)
(** * numpy arrays *)
(* ================================================================== *)

Module Numpy.

(** An n-dimensional array: its shape and its items in row-major order.
    A 0-d array has shape [[]] and one item. *)
Record ndarray : Type := Ndarray { shape : list nat; items : list fnum }.

Definition scalar (x : fnum) : ndarray := Ndarray [] [x].

Definition ndarray_map (f : fnum -> fnum) (a : ndarray) : ndarray :=
  Ndarray (shape a) (map f (items a)).

Definition is0d (a : ndarray) : bool :=
  match shape a with [] => true | _ => false end.

Definition shape_eqb (s t : list nat) : bool :=
  if list_eq_dec Nat.eq_dec s t then true else false.

(** [float(a)] *)
Definition py_float (a : ndarray) : result fnum :=
  match items a with
  | [x] => Ok x
  | _ => Err (Exception TypeError
                "only size-1 arrays can be converted to Python scalars")
  end.

Fixpoint zip_mul (xs ys : list fnum) : list fnum :=
  match xs, ys with
  | x :: xs', y :: ys' => fmul x y :: zip_mul xs' ys'
  | _, _ => []
  end.

(** [a * b].  Broadcasting is modelled for a 0-d operand and for equal
    shapes; the mixin only ever multiplies with a 0-d left operand. *)
Definition np_multiply (a b : ndarray) : result ndarray :=
  match shape a, items a, shape b, items b with
  | [], [x], _, _ => Ok (ndarray_map (fmul x) b)
  | _, _, [], [y] => Ok (ndarray_map (fun x => fmul x y) a)
  | _, _, _, _ =>
      if shape_eqb (shape a) (shape b)
      then Ok (Ndarray (shape a) (zip_mul (items a) (items b)))
      else Err (Exception ValueError
                  "operands could not be broadcast together")
  end.

Definition ndarray_eq (a b : ndarray) : Prop :=
  shape a = shape b /\ Forall2 feq (items a) (items b).

End Numpy.
Export Numpy.

(* ================================================================== *)
(** * astropy.units: units, quantities and equivalencies *)
(* ================================================================== *)

(** astropy is an external library.  The definitions below follow its
    conversion algorithm ([UnitBase._to], [UnitBase._get_converter],
    [UnitBase._apply_equivalencies], [Quantity.to]) on units given in
    decomposed form. *)

Module Units.

(** Powers of the irreducible bases a unit decomposes into. *)
Record dims : Type := Dims {
  d_length : Z; d_time : Z; d_mass : Z; d_angle : Z; d_pixel : Z }.

Definition dims_eqb (a b : dims) : bool :=
  (d_length a =? d_length b)%Z && (d_time a =? d_time b)%Z &&
  (d_mass a =? d_mass b)%Z && (d_angle a =? d_angle b)%Z &&
  (d_pixel a =? d_pixel b)%Z.

Definition dims_add (a b : dims) : dims :=
  Dims (d_length a + d_length b) (d_time a + d_time b) (d_mass a + d_mass b)
       (d_angle a + d_angle b) (d_pixel a + d_pixel b).

Definition dims_sub (a b : dims) : dims :=
  Dims (d_length a - d_length b) (d_time a - d_time b) (d_mass a - d_mass b)
       (d_angle a - d_angle b) (d_pixel a - d_pixel b).

Definition dims_scal (k : Z) (a : dims) : dims :=
  Dims (k * d_length a) (k * d_time a) (k * d_mass a)
       (k * d_angle a) (k * d_pixel a).

Definition dims_dot (a b : dims) : Z :=
  (d_length a * d_length b + d_time a * d_time b + d_mass a * d_mass b +
   d_angle a * d_angle b + d_pixel a * d_pixel b)%Z.

Definition dims_sum (a : dims) : Z :=
  (d_length a + d_time a + d_mass a + d_angle a + d_pixel a)%Z.

(** A unit in decomposed form: a positive scale times powers of bases. *)
Record UnitBase : Type := Unit {
  scale_num : positive; scale_den : positive; bases : dims }.

Definition scale (u : UnitBase) : Q := Zpos (scale_num u) # scale_den u.

Definition unit_mul (u v : UnitBase) : UnitBase :=
  Unit (scale_num u * scale_num v) (scale_den u * scale_den v)
       (dims_add (bases u) (bases v)).

Definition unit_div (u v : UnitBase) : UnitBase :=
  Unit (scale_num u * scale_den v) (scale_den u * scale_num v)
       (dims_sub (bases u) (bases v)).

Definition pix : UnitBase := Unit 1 1 (Dims 0 0 0 0 1).
Definition rad : UnitBase := Unit 1 1 (Dims 0 0 0 1 0).
Definition meter : UnitBase := Unit 1 1 (Dims 1 0 0 0 0).
Definition second : UnitBase := Unit 1 1 (Dims 0 1 0 0 0).
(** pi / 180 = 0.017453292519943295 *)
Definition deg : UnitBase :=
  Unit 3490658503988659 200000000000000000 (Dims 0 0 0 1 0).
Definition arcsec : UnitBase :=
  Unit 3490658503988659 720000000000000000000 (Dims 0 0 0 1 0).
(** 1 pc = 3.0856775814913673e16 m *)
Definition pc : UnitBase := Unit 30856775814913673 1 (Dims 1 0 0 0 0).

(** [u.is_equivalent(v)]: same physical dimension. *)
Definition is_equivalent (u v : UnitBase) : bool :=
  dims_eqb (bases u) (bases v).

(** [u._to(v)]: the scale factor from [u] to [v]; [None] stands for the
    UnitConversionError raised when the dimensions differ. *)
Definition unit_to (u v : UnitBase) : option Q :=
  if dims_eqb (bases u) (bases v) then Some (scale u / scale v) else None.

(** [ratio.decompose([funit]).scale]: succeeds when [funit] is a first
    power of one base and [ratio] is a power of that same base. *)
Definition decompose_in (funit ratio : UnitBase) : option Q :=
  let k := dims_dot (bases ratio) (bases funit) in
  if ((dims_dot (bases funit) (bases funit) =? 1)%Z &&
      (dims_sum (bases funit) =? 1)%Z &&
      dims_eqb (dims_scal k (bases funit)) (bases ratio))%bool
  then Some (scale ratio * Qpower (/ scale funit) k)
  else None.

Record Quantity : Type := mkQuantity { value : ndarray; unit : UnitBase }.

Definition isscalar (q : Quantity) : bool := is0d (value q).

(** [x * u] for a number [x] and a unit [u]. *)
Definition number_times_unit (x : fnum) (u : UnitBase) : Quantity :=
  mkQuantity (scalar x) u.

(** [a * b] on quantities. *)
Definition Quantity_mul (a b : Quantity) : result Quantity :=
  match np_multiply (value a) (value b) with
  | Ok v => Ok (mkQuantity v (unit_mul (unit a) (unit b)))
  | Err e => Err e
  end.

Definition quantity_eq (a b : Quantity) : Prop :=
  ndarray_eq (value a) (value b) /\ unit a = unit b.

Section Conversion.

(** The state the conversion functions of an equivalency may read. *)
Variable S : Type.

(** One entry [(funit, tunit, forward, backward)] of an equivalency
    list; [tunit = None] is the entry of [dimensionless_angles()]. *)
Record equivalency : Type := Equivalency {
  funit : UnitBase;
  tunit : option UnitBase;
  forward : ndarray -> M S ndarray;
  backward : ndarray -> M S ndarray }.

Definition converter : Type := ndarray -> M S ndarray.

(** [lambda v: func(v / scale1) * scale2] *)
Definition make_converter (scale1 : Q) (func : converter) (scale2 : Q)
  : converter :=
  fun v =>
    r <- func (ndarray_map (fun x => fdiv x (Fin scale1)) v) ;;
    ret (ndarray_map (fun x => fmul x (Fin scale2)) r).

Definition not_convertible : exn :=
  Exception UnitConversionError "units are not convertible".

(** [UnitBase._apply_equivalencies] *)
Fixpoint apply_equivalencies (u other : UnitBase) (eqs : list equivalency)
  : result converter :=
  match eqs with
  | [] => Err not_convertible
  | e :: rest =>
      match tunit e with
      | None =>
          match decompose_in (funit e) (unit_div other u) with
          | Some s1 => Ok (make_converter s1 (forward e) 1)
          | None => apply_equivalencies u other rest
          end
      | Some t =>
          match unit_to (funit e) u, unit_to t other with
          | Some s1, Some s2 => Ok (make_converter s1 (forward e) s2)
          | _, _ =>
              match unit_to t u, unit_to (funit e) other with
              | Some s1, Some s2 => Ok (make_converter s1 (backward e) s2)
              | _, _ => apply_equivalencies u other rest
              end
          end
      end
  end.

(** [UnitBase._get_converter]: a plain rescaling when the dimensions
    agree, the equivalencies otherwise. *)
Definition get_converter (u other : UnitBase) (eqs : list equivalency)
  : result converter :=
  match unit_to u other with
  | Some s => Ok (fun v => ret (ndarray_map (fun x => fmul (Fin s) x) v))
  | None => apply_equivalencies u other eqs
  end.

(** [q.to(other, equivalencies=eqs)] *)
Definition Quantity_to (q : Quantity) (other : UnitBase)
                       (eqs : list equivalency) : M S Quantity :=
  conv <- lift (get_converter (unit q) other eqs) ;;
  v <- conv (value q) ;;
  ret (mkQuantity v other).

(** [u.dimensionless_angles()] *)
Definition dimensionless_angles : list equivalency :=
  [Equivalency rad None (fun x => ret x) (fun x => ret x)].

End Conversion.

Arguments Equivalency {S} _ _ _ _.
Arguments funit {S} _.
Arguments tunit {S} _.
Arguments forward {S} _ _.
Arguments backward {S} _ _.
Arguments Quantity_to {S} _ _ _.
Arguments get_converter {S} _ _ _.
Arguments apply_equivalencies {S} _ _ _.
Arguments make_converter {S} _ _ _.
Arguments dimensionless_angles {S}.

End Units.
Export Units.

(* ================================================================== *)
(** * astropy.io.fits headers *)
(* ================================================================== *)

Module Fits.

(** The value of a header card: a bool, a Python int of any size, a
    floating-point number (a header refuses a NaN or an infinity given as
    a Python float, but takes one of another floating type, so a card may
    hold either), or a string.  Complex cards, whose absolute value is no
    rational, are left out. *)
Inductive card_value : Type :=
| CBool (b : bool)
| CInt (z : Z)
| CFloat (x : fnum)
| CStr (s : string).

(** An ordered list of cards (keyword, value); keywords may repeat. *)
Definition Header : Type := list (string * card_value).

(** [hdr[key]]: the first card with that keyword, KeyError if none. *)
Fixpoint Header_getitem (h : Header) (key : string) : result card_value :=
  match h with
  | [] => Err (Exception KeyError
                 (String.append "Keyword '" (String.append key "' not found.")))
  | (k, v) :: rest =>
      if String.eqb k key then Ok v else Header_getitem rest key
  end.

(** The least int64. *)
Definition int64_min : Z := (- 2 ^ 63)%Z.

(** [np.abs] on a Python int.  numpy takes an int that fits as an int64
    (its default integer where this code runs), and the absolute value of
    the least int64 wraps around to itself; an int beyond int64 is taken
    as a uint64 or as a Python object, whose absolute value is exact.
    The float the quantity then holds is taken as that exact integer,
    as all arithmetic here is exact. *)
Definition np_abs_int (z : Z) : Z :=
  if (z =? int64_min)%Z then int64_min else Z.abs z.

(** [np.abs(v)] on a card value. *)
Definition np_abs (v : card_value) : result fnum :=
  match v with
  | CBool b => Ok (Fin (if b then 1 else 0))
  | CInt z => Ok (Fin (inject_Z (np_abs_int z)))
  | CFloat x => Ok (fabs x)
  | CStr _ => Err (Exception TypeError
                     "ufunc 'absolute' did not contain a loop with signature matching types")
  end.

End Fits.
Export Fits.

(* ================================================================== *)
(** * Python values *)
(* ================================================================== *)

#[warnings="-register-all"]
Inductive pyobj : Type :=
| PyNone
| PyBool (b : bool)
| PyInt (z : Z)
| PyFloat (x : fnum)
| PyStr (s : string)
| PySeq (l : list pyobj)               (* a tuple or a list *)
| PyNdarray (a : ndarray)              (* numpy.ndarray *)
| PyQuantity (q : Quantity)            (* astropy.units.Quantity *)
| PyHeader (h : Header)                (* astropy.io.fits.header.Header *)
| PyHDU (a : ndarray) (h : Header).    (* astropy.io.fits.PrimaryHDU *)

Definition is_None (o : pyobj) : bool :=
  match o with PyNone => true | _ => false end.

(** [isinstance(o, fits.header.Header)] *)
Definition isinstance_Header (o : pyobj) : bool :=
  match o with PyHeader _ => true | _ => false end.

(** [isinstance(o, np.ndarray)]; Quantity is a subclass of ndarray. *)
Definition isinstance_ndarray (o : pyobj) : bool :=
  match o with PyNdarray _ | PyQuantity _ => true | _ => false end.

(** [isinstance(o, u.Quantity)] *)
Definition isinstance_Quantity (o : pyobj) : bool :=
  match o with PyQuantity _ => true | _ => false end.

(** [o[key]] for a string key. *)
Definition py_getitem (o : pyobj) (key : string) : result card_value :=
  match o with
  | PyHeader h => Header_getitem h key
  | PyNone =>
      Err (Exception TypeError "'NoneType' object is not subscriptable")
  | PyBool _ => Err (Exception TypeError "'bool' object is not subscriptable")
  | PyInt _ => Err (Exception TypeError "'int' object is not subscriptable")
  | PyFloat _ =>
      Err (Exception TypeError "'float' object is not subscriptable")
  | PyHDU _ _ =>
      Err (Exception TypeError "'PrimaryHDU' object is not subscriptable")
  | PyStr _ => Err (Exception TypeError "string indices must be integers")
  | PySeq _ =>
      Err (Exception TypeError "list indices must be integers or slices, not str")
  | PyNdarray _ | PyQuantity _ =>
      Err (Exception IndexError
             "only integers, slices, ellipsis, numpy.newaxis and integer or boolean arrays are valid indices")
  end.

Definition shape_size (s : list nat) : nat := fold_right Nat.mul 1%nat s.

Definition not_enough : exn :=
  Exception ValueError "not enough values to unpack (expected 2)".
Definition too_many : exn :=
  Exception ValueError "too many values to unpack (expected 2)".

(** What iterating over an array yields for one position: a sub-array,
    or for a 1-d array the numpy scalar (a float, no ndarray) it holds. *)
Definition array_element (a : ndarray) : pyobj :=
  match shape a, items a with
  | [], [x] => PyFloat x
  | _, _ => PyNdarray a
  end.

(** The two halves of an array whose first axis has length 2. *)
Definition unpack_array (a : ndarray) : result (ndarray * ndarray) :=
  match shape a with
  | [] => Err (Exception TypeError "iteration over a 0-d array")
  | 2%nat :: rest =>
      Ok (Ndarray rest (firstn (shape_size rest) (items a)),
          Ndarray rest (skipn (shape_size rest) (items a)))
  | 0%nat :: _ | 1%nat :: _ => Err not_enough
  | _ => Err too_many
  end.

(** [a, b = o] *)
Definition py_unpack2 (o : pyobj) : result (pyobj * pyobj) :=
  match o with
  | PySeq [a; b] => Ok (a, b)
  | PySeq [] | PySeq [_] => Err not_enough
  | PySeq _ => Err too_many
  | PyStr (String a (String b EmptyString)) =>
      Ok (PyStr (String a EmptyString), PyStr (String b EmptyString))
  | PyStr EmptyString | PyStr (String _ EmptyString) => Err not_enough
  | PyStr _ => Err too_many
  | PyNdarray a =>
      match unpack_array a with
      | Ok (x, y) => Ok (array_element x, array_element y)
      | Err e => Err e
      end
  | PyQuantity q =>
      match unpack_array (value q) with
      | Ok (x, y) => Ok (PyQuantity (mkQuantity x (unit q)),
                         PyQuantity (mkQuantity y (unit q)))
      | Err e => Err e
      end
  | PyHeader [(k1, _); (k2, _)] => Ok (PyStr k1, PyStr k2)
  | PyHeader [] | PyHeader [_] => Err not_enough
  | PyHeader _ => Err too_many
  | PyNone | PyBool _ | PyInt _ | PyFloat _ | PyHDU _ _ =>
      Err (Exception TypeError "cannot unpack non-iterable object")
  end.

(* ================================================================== *)
(** * BaseStatisticMixIn *)
(* ================================================================== *)

(** An object of the class: the two class-level flags (a subclass may
    override them) and the three private attributes, [None] while the
    attribute does not exist yet.  Only the distance setter writes
    [_distance], and only after its Quantity check. *)
Record instance : Type := Instance {
  need_header_flag : bool;
  no_data_flag : bool;
  _header : option pyobj;
  _data : option pyobj;
  _distance : option Quantity }.

(** A fresh object of the class itself: [need_header_flag = True],
    [no_data_flag = False], no attribute assigned. *)
Definition new_instance : instance := Instance true false None None None.

Definition read {A} (f : instance -> A) : M instance A :=
  fun self => (Ok (f self), self).

Definition getattr {A} (f : instance -> option A) (name : string)
  : M instance A :=
  fun self =>
    match f self with
    | Some v => (Ok v, self)
    | None =>
        (Err (Exception AttributeError
                (String.append "'BaseStatisticMixIn' object has no attribute '"
                               (String.append name "'"))), self)
    end.

(** [self._header = v], [self._data = v], [self._distance = q] *)
Definition with_header (self : instance) (v : pyobj) : instance :=
  Instance (need_header_flag self) (no_data_flag self)
           (Some v) (_data self) (_distance self).

Definition with_data (self : instance) (v : pyobj) : instance :=
  Instance (need_header_flag self) (no_data_flag self)
           (_header self) (Some v) (_distance self).

Definition with_distance (self : instance) (q : Quantity) : instance :=
  Instance (need_header_flag self) (no_data_flag self)
           (_header self) (_data self) (Some q).

Definition store_header (v : pyobj) : M instance Datatypes.unit :=
  fun self => (Ok tt, with_header self v).

Definition store_data (v : pyobj) : M instance Datatypes.unit :=
  fun self => (Ok tt, with_data self v).

Definition store_distance (q : Quantity) : M instance Datatypes.unit :=
  fun self => (Ok tt, with_distance self q).

(** [header] (getter) *)
Definition header : M instance pyobj := getattr _header "_header".

(** [header] (setter) *)
Definition header_setter (input_hdr : pyobj) : M instance Datatypes.unit :=
  need <- read need_header_flag ;;
  if negb need then store_header PyNone
  else if negb (isinstance_Header input_hdr)
  then raise TypeError "The header must be a astropy.io.fits.header.Header."
  else store_header input_hdr.

(** [data] (getter) *)
Definition data : M instance pyobj := getattr _data "_data".

(** [data] (setter) *)
Definition data_setter (values : pyobj) : M instance Datatypes.unit :=
  no_data <- read no_data_flag ;;
  if no_data then store_data PyNone
  else if negb (isinstance_ndarray values)
  then raise TypeError "Data is not a numpy array."
  else store_data values.

Section Loader.

(** [turbustat.io.input_data(data, no_header=...)], the loader the class
    delegates to; it lives outside this file. *)
Variable input_data : pyobj -> bool -> result pyobj.

Definition input_data_header (data header : pyobj)
  : M instance Datatypes.unit :=
  if negb (is_None header) then
    arr <- lift (input_data data true) ;;
    data_setter arr ;;;
    header_setter header
  else
    r <- lift (input_data data false) ;;
    p <- lift (py_unpack2 r) ;;
    data_setter (fst p) ;;;
    header_setter (snd p).

End Loader.

(** [ang_size] *)
Definition ang_size : M instance Quantity :=
  hdr <- header ;;
  v <- lift (py_getitem hdr "CDELT2") ;;
  a <- lift (np_abs v) ;;
  ret (number_times_unit a deg).

(** [angular_equiv] *)
Definition angular_equiv : M instance (list (equivalency instance)) :=
  ret [Equivalency pix (Some deg)
         (fun x => a <- ang_size ;;
                   f <- lift (py_float (value a)) ;;
                   ret (ndarray_map (fun e => fmul e f) x))
         (fun x => a <- ang_size ;;
                   f <- lift (py_float (value a)) ;;
                   ret (ndarray_map (fun e => fdiv e f) x))].

(** [to_pixel] *)
Definition to_pixel (value : pyobj) : M instance Quantity :=
  match value with
  | PyQuantity q =>
      eqs <- angular_equiv ;;
      Quantity_to q pix eqs
  | _ => raise TypeError "value must be an astropy Quantity object."
  end.

(** [distance] (getter) *)
Definition distance : M instance Quantity := getattr _distance "_distance".

(** [distance] (setter) *)
Definition distance_setter (value : pyobj) : M instance Datatypes.unit :=
  match value with
  | PyQuantity q =>
      if negb (is_equivalent (unit q) pc)
      then raise UnitConversionError
                 "Given unit ({}) is not a valid unit of distance."
      else if negb (isscalar q)
      then raise TypeError "Distance must be a scalar quantity."
      else store_distance q
  | _ => raise TypeError "Value for distance must an astropy Quantity."
  end.

(** [distance_size] *)
Definition distance_size : M instance Quantity :=
  a <- ang_size ;;
  d <- distance ;;
  prod <- lift (Quantity_mul a d) ;;
  d' <- distance ;;
  Quantity_to prod (unit d') dimensionless_angles.

(** [distance_equiv] *)
Definition distance_equiv : M instance (list (equivalency instance)) :=
  d <- distance ;;
  ret [Equivalency pix (Some (unit d))
         (fun x => s <- distance_size ;;
                   f <- lift (py_float (value s)) ;;
                   ret (ndarray_map (fun e => fmul e f) x))
         (fun x => s <- distance_size ;;
                   f <- lift (py_float (value s)) ;;
                   ret (ndarray_map (fun e => fdiv e f) x))].

(** Modelled from the spec: the loader [input_data] of [turbustat.io],
    which these sources only import.  It takes a combined data and header
    source, or a bare array together with the flag that tells it not to
    look for a header, and returns the array alone under that flag and
    the pair (array, header) otherwise. *)
Definition input_data_model (source : pyobj) (no_header : bool)
  : result pyobj :=
  match source with
  | PyHDU a h =>
      Ok (if no_header then PyNdarray a
          else PySeq [PyNdarray a; PyHeader h])
  | PySeq [a; h] => Ok (if no_header then a else PySeq [a; h])
  | PyNdarray a =>
      if no_header then Ok (PyNdarray a)
      else Err (Exception TypeError
                  "no_header must be enabled when giving data without a header.")
  | _ => Err (Exception TypeError "Input data is not of an accepted form.")
  end.

(** The exception class an outcome carries, if it is a failure. *)
Definition raised {A} (r : result A * instance) : option exn_class :=
  match fst r with
  | Ok _ => None
  | Err e => Some (exn_cls e)
  end.


(* ------------------------------------------------------------------ *)
(** ** Sample objects *)
(* ------------------------------------------------------------------ *)

Definition sample_header : Header :=
  [("NAXIS", CInt 2); ("CDELT1", CFloat (Fin (-(1 # 100))));
   ("CDELT2", CFloat (Fin (1 # 100)))].

Definition sample_array : ndarray :=
  Ndarray [2%nat; 2%nat] [Fin 1; Fin 2; Fin 3; Fin 4].

Definition parsecs (x : Q) : Quantity := mkQuantity (scalar (Fin x)) pc.

Definition two_parsecs : Quantity :=
  mkQuantity (Ndarray [2%nat] [Fin 1; Fin 2]) pc.

Definition two_seconds : Quantity :=
  mkQuantity (Ndarray [2%nat] [Fin 1; Fin 2]) second.

(** An object of a statistic that needs no header. *)
Definition flagged_off : instance := Instance false false None None None.

(* ------------------------------------------------------------------ *)
(** ** Sequences of calls on one object *)
(* ------------------------------------------------------------------ *)

(** What a user can do with an object of the class: assign one of the
    three attributes, resolve data and header together, or read a derived
    quantity.  A caller may catch an exception and go on, so a sequence
    of calls is followed through the object each call leaves behind. *)
Inductive call : Type :=
| SetHeader (input_hdr : pyobj)
| SetData (values : pyobj)
| SetDistance (value : pyobj)
| InputDataHeader (data header : pyobj)
| GetAngSize
| GetAngularEquiv
| ToPixel (value : pyobj)
| GetDistanceSize
| GetDistanceEquiv.

Definition perform (input_data : pyobj -> bool -> result pyobj)
                   (c : call) (self : instance) : instance :=
  match c with
  | SetHeader v => snd (header_setter v self)
  | SetData v => snd (data_setter v self)
  | SetDistance v => snd (distance_setter v self)
  | InputDataHeader d h => snd (input_data_header input_data d h self)
  | GetAngSize => snd (ang_size self)
  | GetAngularEquiv => snd (angular_equiv self)
  | ToPixel v => snd (to_pixel v self)
  | GetDistanceSize => snd (distance_size self)
  | GetDistanceEquiv => snd (distance_equiv self)
  end.

Definition perform_all (input_data : pyobj -> bool -> result pyobj)
                       (cs : list call) (self : instance) : instance :=
  fold_left (fun s c => perform input_data c s) cs self.

(** What the setters let through: a stored header is a [Header] when the
    statistic needs one and [None] when it does not; stored data is an
    ndarray instance, or [None] when the statistic uses no data; a stored
    distance is a scalar length. *)
Definition header_ok (self : instance) : bool :=
  match _header self with
  | None => true
  | Some v => if need_header_flag self then isinstance_Header v else is_None v
  end.

Definition data_ok (self : instance) : bool :=
  match _data self with
  | None => true
  | Some v => if no_data_flag self then is_None v else isinstance_ndarray v
  end.

Definition distance_ok (self : instance) : bool :=
  match _distance self with
  | None => true
  | Some q => is_equivalent (unit q) pc && isscalar q
  end.

Definition well_formed (self : instance) : bool :=
  header_ok self && data_ok self && distance_ok self.

(** Well-formed, with the flags the object was created with. *)
Definition invariant (f1 f2 : bool) (self : instance) : Prop :=
  well_formed self = true /\
  need_header_flag self = f1 /\ no_data_flag self = f2.

(** A computation that never writes to the object. *)
Definition read_only {A} (c : M instance A) : Prop :=
  forall self, snd (c self) = self.

(** A rule whose two conversion functions never write to the object. *)
Definition read_only_rule (e : equivalency instance) : Prop :=
  (forall x, read_only (forward e x)) /\ (forall x, read_only (backward e x)).

(** A fresh object of a statistic with the given flags. *)
Definition fresh (need_header no_data : bool) : instance :=
  Instance need_header no_data None None None.


(* ================================================================== *)
(** * Properties *)
(* ================================================================== *)

(* ------------------------------------------------------------------ *)
(** ** Arithmetic of values and scales *)
(* ------------------------------------------------------------------ *)

Lemma feq_refl x : x =f= x.
Proof. destruct x; simpl; [apply Qeq_refl | reflexivity | exact I]. Qed.

Lemma Qzero_false q : ~ q == 0 -> Qzero q = false.
Proof.
  intros H. unfold Qzero. destruct (Qeq_bool q 0) eqn:E; [|reflexivity].
  apply Qeq_bool_iff in E. contradiction.
Qed.

Lemma Qneg_pos q : 0 < q -> Qneg q = false.
Proof.
  intros H. unfold Qneg. destruct (Qcompare q 0) eqn:E; try reflexivity.
  apply Qlt_alt in E. lra.
Qed.

Lemma Qzero_pos q : 0 < q -> Qzero q = false.
Proof. intros H. apply Qzero_false. lra. Qed.

Lemma scale_pos u : 0 < scale u.
Proof. unfold scale, Qlt. simpl. lia. Qed.

Lemma scale_ratio_pos u v : 0 < scale u / scale v.
Proof.
  apply Qlt_shift_div_l; [apply scale_pos|].
  rewrite Qmult_0_l. apply scale_pos.
Qed.

Lemma scale_ratio_self u : scale u / scale u == 1.
Proof. field. pose proof (scale_pos u). lra. Qed.

(** Dividing by a positive scale and multiplying by a positive scale keep
    an infinity what it is. *)
Lemma fdiv_Inf_pos b s : 0 < s -> fdiv (Inf b) (Fin s) = Inf b.
Proof. intros H. simpl. rewrite (Qneg_pos _ H). destruct b; reflexivity. Qed.

Lemma fmul_Inf_pos b s : 0 < s -> fmul (Inf b) (Fin s) = Inf b.
Proof.
  intros H. simpl. rewrite (Qzero_pos _ H), (Qneg_pos _ H).
  destruct b; reflexivity.
Qed.

Lemma fdiv_Fin_nz q s : ~ s == 0 -> fdiv (Fin q) (Fin s) = Fin (q / s).
Proof. intros H. simpl. rewrite (Qzero_false _ H). reflexivity. Qed.


(** Dividing by the reciprocal of a positive scale is multiplying by it. *)
Lemma fdiv_reciprocal x s1 s :
  0 < s -> s1 == / s ->
  fmul (fdiv x (Fin s1)) (Fin 1) =f= fmul x (Fin s).
Proof.
  intros Hs H1.
  assert (P1 : 0 < s1) by (rewrite H1; apply Qinv_lt_0_compat; exact Hs).
  destruct x as [q|b|].
  - rewrite fdiv_Fin_nz by lra. simpl. rewrite H1. field. lra.
  - rewrite (fdiv_Inf_pos _ _ P1). rewrite !fmul_Inf_pos by lra. reflexivity.
  - exact I.
Qed.

Lemma ndarray_map_map f g a :
  ndarray_map f (ndarray_map g a) = ndarray_map (fun x => f (g x)) a.
Proof. unfold ndarray_map. simpl. rewrite map_map. reflexivity. Qed.

Lemma ndarray_map_feq f g a :
  (forall x, f x =f= g x) -> ndarray_eq (ndarray_map f a) (ndarray_map g a).
Proof.
  intros H. split; [reflexivity|]. simpl.
  induction (items a) as [|x xs IH]; simpl; constructor; auto.
Qed.

Lemma ndarray_map_id_feq f a :
  (forall x, f x =f= x) -> ndarray_eq (ndarray_map f a) a.
Proof.
  intros H. split; [reflexivity|]. simpl.
  induction (items a) as [|x xs IH]; simpl; constructor; auto.
Qed.

(* ------------------------------------------------------------------ *)
(** ** Dimensions and converters *)
(* ------------------------------------------------------------------ *)

Lemma dims_eqb_eq a b : dims_eqb a b = true <-> a = b.
Proof.
  destruct a, b. unfold dims_eqb. simpl.
  rewrite !andb_true_iff, !Z.eqb_eq. split.
  - intros ((((-> & ->) & ->) & ->) & ->). reflexivity.
  - intros E. injection E as -> -> -> -> ->. repeat split.
Qed.

Lemma dims_eqb_sym a b : dims_eqb a b = dims_eqb b a.
Proof.
  unfold dims_eqb.
  rewrite (Z.eqb_sym (d_length a)), (Z.eqb_sym (d_time a)),
          (Z.eqb_sym (d_mass a)), (Z.eqb_sym (d_angle a)),
          (Z.eqb_sym (d_pixel a)).
  reflexivity.
Qed.

Lemma unit_to_equivalent u v :
  is_equivalent u v = true -> unit_to u v = Some (scale u / scale v).
Proof. unfold is_equivalent, unit_to. intros ->. reflexivity. Qed.

Lemma unit_to_not_equivalent u v :
  is_equivalent u v = false -> unit_to u v = None.
Proof. unfold is_equivalent, unit_to. intros ->. reflexivity. Qed.

Lemma is_equivalent_sym u v : is_equivalent u v = is_equivalent v u.
Proof. apply dims_eqb_sym. Qed.

(** An angle is no pixel count. *)
Lemma angle_not_pixel t :
  is_equivalent t deg = true -> is_equivalent t pix = false.
Proof.
  unfold is_equivalent. intros H. apply dims_eqb_eq in H. rewrite H.
  reflexivity.
Qed.

(* ------------------------------------------------------------------ *)
(** ** Reading attributes and derived quantities leaves the object alone *)
(* ------------------------------------------------------------------ *)

Lemma getattr_state {A} (f : instance -> option A) name self :
  snd (getattr f name self) = self.
Proof. unfold getattr. destruct (f self); reflexivity. Qed.

Lemma getattr_some {A} (f : instance -> option A) name self v :
  f self = Some v -> getattr f name self = (Ok v, self).
Proof. intros E. unfold getattr. rewrite E. reflexivity. Qed.

Lemma ang_size_state self : snd (ang_size self) = self.
Proof.
  unfold ang_size, header, bind, lift, ret, getattr.
  destruct (_header self) as [hdr|]; [|reflexivity].
  destruct (py_getitem hdr "CDELT2") as [v|e]; [|reflexivity].
  destruct (np_abs v); reflexivity.
Qed.

(** What [ang_size] evaluates to, by the state of [_header]. *)
Lemma ang_size_eval self :
  ang_size self =
  (match _header self with
   | None =>
       Err (Exception AttributeError
              "'BaseStatisticMixIn' object has no attribute '_header'")
   | Some hdr =>
       match py_getitem hdr "CDELT2" with
       | Err e => Err e
       | Ok v =>
           match np_abs v with
           | Err e => Err e
           | Ok a => Ok (number_times_unit a deg)
           end
       end
   end, self).
Proof.
  unfold ang_size, header, bind, lift, ret, getattr.
  destruct (_header self) as [hdr|]; [|reflexivity].
  destruct (py_getitem hdr "CDELT2") as [v|e]; [|reflexivity].
  destruct (np_abs v); reflexivity.
Qed.



(* ------------------------------------------------------------------ *)
(** ** The header and data attributes *)
(* ------------------------------------------------------------------ *)

(** C5.  Assigning [H] to [header]: with [need_header_flag] disabled the
    stored header becomes [None] whatever [H] is; with the flag enabled a
    [Header] instance is stored as given (and read back by the getter),
    and any other value raises TypeError and stores nothing. *)
Theorem header_setter_spec : forall (self : instance) (H : pyobj),
  if need_header_flag self then
    if isinstance_Header H then
      header_setter H self = (Ok tt, with_header self H) /\
      header (with_header self H) = (Ok H, with_header self H)
    else
      header_setter H self =
      (Err (Exception TypeError
              "The header must be a astropy.io.fits.header.Header."), self)
  else
    header_setter H self = (Ok tt, with_header self PyNone) /\
    header (with_header self PyNone) = (Ok PyNone, with_header self PyNone).
Proof.
  intros self H. unfold header_setter, bind, read.
  destruct (need_header_flag self); simpl.
  - destruct (isinstance_Header H); simpl; [split|]; reflexivity.
  - split; reflexivity.
Qed.

(** C6.  Assigning [D] to [data]: with [no_data_flag] enabled the stored
    data becomes [None] whatever [D] is; otherwise an ndarray instance is
    stored as given and the getter returns it, and any other value raises
    TypeError and stores nothing. *)
Theorem data_setter_spec : forall (self : instance) (D : pyobj),
  if no_data_flag self then
    data_setter D self = (Ok tt, with_data self PyNone) /\
    data (with_data self PyNone) = (Ok PyNone, with_data self PyNone)
  else
    if isinstance_ndarray D then
      data_setter D self = (Ok tt, with_data self D) /\
      data (with_data self D) = (Ok D, with_data self D)
    else
      data_setter D self =
      (Err (Exception TypeError "Data is not a numpy array."), self).
Proof.
  intros self D. unfold data_setter, bind, read.
  destruct (no_data_flag self); simpl.
  - split; reflexivity.
  - destruct (isinstance_ndarray D); simpl; [split|]; reflexivity.
Qed.

(* ------------------------------------------------------------------ *)
(** ** Resolving the data and the header *)
(* ------------------------------------------------------------------ *)

(** C7.  The two modes of [input_data_header] agree.  Whenever the loader
    turns the combined [source] into the pair [(arr, hdr)] and returns
    [arr] for the bare input under [no_header=True], calling with
    [(source, None)] and calling with [(bare, hdr)] give the same outcome
    and leave the object in the same state: the one obtained by assigning
    [arr] to [data] and then [hdr] to [header]. *)
Theorem input_data_header_modes_agree :
  forall (input_data : pyobj -> bool -> result pyobj)
         (self : instance) (source bare arr hdr : pyobj),
    input_data source false = Ok (PySeq [arr; hdr]) ->
    input_data bare true = Ok arr ->
    is_None hdr = false ->
    input_data_header input_data source PyNone self =
      input_data_header input_data bare hdr self /\
    input_data_header input_data bare hdr self =
      (data_setter arr ;;; header_setter hdr) self.
Proof.
  intros input_data self source bare arr hdr Hsrc Hbare Hhdr.
  unfold input_data_header. rewrite Hhdr. simpl.
  unfold bind at 1 3 5. unfold lift. rewrite Hsrc, Hbare.
  unfold bind at 1. simpl. split; reflexivity.
Qed.

Lemma input_data_header_modes_agree_witness :
  input_data_header input_data_model
      (PyHDU sample_array sample_header) PyNone new_instance =
    input_data_header input_data_model
      (PyNdarray sample_array) (PyHeader sample_header) new_instance /\
  input_data_header input_data_model
      (PyNdarray sample_array) (PyHeader sample_header) new_instance =
    (Ok tt, with_header (with_data new_instance (PyNdarray sample_array))
                        (PyHeader sample_header)).
Proof.
  destruct (input_data_header_modes_agree input_data_model new_instance
              (PyHDU sample_array sample_header) (PyNdarray sample_array)
              (PyNdarray sample_array) (PyHeader sample_header)
              eq_refl eq_refl eq_refl) as [H1 H2].
  split; [exact H1 | rewrite H2; reflexivity].
Defined.

(* ------------------------------------------------------------------ *)
(** ** The distance attribute *)
(* ------------------------------------------------------------------ *)

Lemma header_setter_keeps_distance v self :
  _distance (snd (header_setter v self)) = _distance self.
Proof.
  unfold header_setter, bind, read.
  destruct (need_header_flag self); simpl; [|reflexivity].
  destruct (isinstance_Header v); reflexivity.
Qed.

Lemma data_setter_keeps_distance v self :
  _distance (snd (data_setter v self)) = _distance self.
Proof.
  unfold data_setter, bind, read.
  destruct (no_data_flag self); simpl; [reflexivity|].
  destruct (isinstance_ndarray v); reflexivity.
Qed.

Lemma distance_setter_ok v self self' :
  distance_setter v self = (Ok tt, self') ->
  exists q, v = PyQuantity q /\ is_equivalent (unit q) pc = true /\
            isscalar q = true /\ self' = with_distance self q.
Proof.
  unfold distance_setter, raise, store_distance.
  destruct v; try discriminate.
  destruct (is_equivalent (unit q) pc) eqn:Hu; simpl; [|discriminate].
  destruct (isscalar q) eqn:Hs; simpl; [|discriminate].
  intros E. injection E as <-. exists q. repeat split; assumption.
Qed.

(** C9.  The distance getter has no default: on a fresh object, and on
    any object whose [_distance] was never assigned, it raises
    AttributeError; assigning the header or the data does not create the
    attribute; and after a successful assignment of [v] the getter returns
    the stored quantity. *)
Theorem distance_getter_spec :
  distance new_instance =
    (Err (Exception AttributeError
            "'BaseStatisticMixIn' object has no attribute '_distance'"),
     new_instance) /\
  (forall self,
      match _distance self with
      | None => distance self =
                (Err (Exception AttributeError
                   "'BaseStatisticMixIn' object has no attribute '_distance'"),
                 self)
      | Some q => distance self = (Ok q, self)
      end) /\
  (forall self v,
      _distance (snd (header_setter v self)) = _distance self /\
      _distance (snd (data_setter v self)) = _distance self) /\
  (forall self v self',
      distance_setter v self = (Ok tt, self') ->
      exists q, v = PyQuantity q /\ distance self' = (Ok q, self')).
Proof.
  split; [reflexivity|]. split; [|split].
  - intros self. unfold distance, getattr.
    destruct (_distance self); reflexivity.
  - intros self v. split.
    + apply header_setter_keeps_distance.
    + apply data_setter_keeps_distance.
  - intros self v self' Hset.
    destruct (distance_setter_ok _ _ _ Hset) as (q & -> & _ & _ & ->).
    exists q. split; reflexivity.
Qed.

Lemma distance_getter_spec_witness :
  distance (with_distance new_instance (parsecs 100)) =
  (Ok (parsecs 100), with_distance new_instance (parsecs 100)).
Proof.
  destruct distance_getter_spec as (_ & _ & _ & H).
  destruct (H new_instance (PyQuantity (parsecs 100))
              (with_distance new_instance (parsecs 100)) eq_refl)
    as (q & Hq & Hd).
  injection Hq as <-. exact Hd.
Defined.

(** C1, as stated, fails: an array of two parsec values is refused with a
    TypeError, the very class raised for a value that is no Quantity, so
    the two violations are told apart by the message only; and an array
    whose unit is no length is refused by the unit check, which comes
    first. *)
Lemma distance_setter_nonscalar_is_TypeError :
  distance_setter (PyQuantity two_parsecs) new_instance =
    (Err (Exception TypeError "Distance must be a scalar quantity."),
     new_instance) /\
  distance_setter (PyInt 3) new_instance =
    (Err (Exception TypeError "Value for distance must an astropy Quantity."),
     new_instance) /\
  raised (distance_setter (PyQuantity two_parsecs) new_instance) =
    raised (distance_setter (PyInt 3) new_instance) /\
  distance_setter (PyQuantity two_seconds) new_instance =
    (Err (Exception UnitConversionError
            "Given unit ({}) is not a valid unit of distance."),
     new_instance).
Proof. repeat split. Qed.

(** C1, amended.  Assigning to [distance]: a value that is no Quantity
    raises TypeError; a Quantity whose unit is not equivalent to a length
    raises UnitConversionError, scalar or not; a length Quantity that is
    not scalar raises TypeError again, with its own message; a scalar
    length Quantity is stored and the getter returns it unchanged.  A
    failed assignment leaves the object as it was. *)
Theorem distance_setter_spec : forall (self : instance) (value : pyobj),
  match value with
  | PyQuantity q =>
      if is_equivalent (unit q) pc then
        if isscalar q then
          distance_setter value self = (Ok tt, with_distance self q) /\
          distance (with_distance self q) = (Ok q, with_distance self q)
        else
          distance_setter value self =
          (Err (Exception TypeError "Distance must be a scalar quantity."),
           self)
      else
        distance_setter value self =
        (Err (Exception UnitConversionError
                "Given unit ({}) is not a valid unit of distance."), self)
  | _ =>
      distance_setter value self =
      (Err (Exception TypeError
              "Value for distance must an astropy Quantity."), self)
  end.
Proof.
  intros self value. destruct value; try reflexivity.
  unfold distance_setter.
  destruct (is_equivalent (unit q) pc); simpl; [|reflexivity].
  destruct (isscalar q); simpl; [split|]; reflexivity.
Qed.

(* ------------------------------------------------------------------ *)
(** ** The angular scale and its equivalency *)
(* ------------------------------------------------------------------ *)



(** C10.  Asking for [angular_equiv] never reads the header: on every
    object, whatever its header, it returns the one rule between pixels
    and degrees and leaves the object alone.  [ang_size] is read when a
    conversion function of the rule is applied, and a failure of
    [ang_size] is then the failure of that conversion. *)
Theorem angular_equiv_is_lazy : forall (self : instance),
  exists e,
    angular_equiv self = (Ok [e], self) /\
    funit e = pix /\ tunit e = Some deg /\
    (forall err x,
        ang_size self = (Err err, self) ->
        forward e x self = (Err err, self) /\
        backward e x self = (Err err, self)).
Proof.
  intros self. unfold angular_equiv, ret. eexists. split; [reflexivity|].
  split; [reflexivity|]. split; [reflexivity|].
  intros err x Hang. simpl. unfold bind. rewrite Hang. split; reflexivity.
Qed.

Lemma angular_equiv_is_lazy_witness :
  exists e,
    angular_equiv (with_header new_instance (PyHeader [])) =
      (Ok [e], with_header new_instance (PyHeader [])) /\
    forward e (scalar (Fin 1)) (with_header new_instance (PyHeader [])) =
      (Err (Exception KeyError "Keyword 'CDELT2' not found."),
       with_header new_instance (PyHeader [])).
Proof.
  destruct (angular_equiv_is_lazy (with_header new_instance (PyHeader [])))
    as (e & He & _ & _ & Hconv).
  exists e. split; [exact He|].
  exact (proj1 (Hconv _ (scalar (Fin 1)) eq_refl)).
Defined.

(* ------------------------------------------------------------------ *)
(** ** Converting to pixels *)
(* ------------------------------------------------------------------ *)

(** The converter [to_pixel] obtains for a quantity whose unit is an
    angle: the backward function of the rule, between the rescaling from
    the unit to degrees and the trivial one on pixels. *)
Lemma get_converter_angle_to_pix u (e : equivalency instance) rest :
  funit e = pix -> tunit e = Some deg ->
  is_equivalent u deg = true ->
  get_converter u pix (e :: rest) =
  Ok (make_converter (scale deg / scale u) (backward e)
                     (scale pix / scale pix)).
Proof.
  intros Hf Ht Hu. unfold get_converter.
  rewrite (unit_to_not_equivalent u pix (angle_not_pixel _ Hu)).
  cbn [apply_equivalencies]. rewrite Ht, Hf.
  assert (Hpu : is_equivalent pix u = false)
    by (rewrite is_equivalent_sym; apply angle_not_pixel, Hu).
  rewrite (unit_to_not_equivalent _ _ Hpu).
  rewrite is_equivalent_sym in Hu.
  rewrite (unit_to_equivalent _ _ Hu).
  rewrite (unit_to_equivalent pix pix eq_refl). reflexivity.
Qed.


(** No rule of [angular_equiv] reaches pixels from a unit that is neither
    a pixel count nor an angle. *)
Lemma get_converter_not_convertible u (e : equivalency instance) :
  funit e = pix -> tunit e = Some deg ->
  is_equivalent u pix = false -> is_equivalent u deg = false ->
  get_converter u pix [e] = Err not_convertible.
Proof.
  intros Hf Ht Hp Hd. unfold get_converter.
  rewrite (unit_to_not_equivalent _ _ Hp).
  cbn [apply_equivalencies]. rewrite Ht, Hf.
  rewrite is_equivalent_sym in Hp. rewrite (unit_to_not_equivalent _ _ Hp).
  rewrite is_equivalent_sym in Hd. rewrite (unit_to_not_equivalent _ _ Hd).
  reflexivity.
Qed.

(** The outcome of [to_pixel] on an angle once [ang_size] is known. *)
Lemma to_pixel_of_angle self q f :
  is_equivalent (unit q) deg = true ->
  ang_size self = (Ok (mkQuantity (scalar f) deg), self) ->
  to_pixel (PyQuantity q) self =
  (Ok (mkQuantity
         (ndarray_map
            (fun x => fmul (fdiv (fdiv x (Fin (scale deg / scale (unit q)))) f)
                           (Fin (scale pix / scale pix)))
            (value q)) pix), self).
Proof.
  intros Hd Hang. unfold to_pixel, angular_equiv.
  match goal with
  | |- context [ret [?e0]] => set (e := e0)
  end.
  change ((eqs <- ret [e] ;; Quantity_to q pix eqs) self)
    with (Quantity_to q pix [e] self).
  unfold Quantity_to.
  rewrite (get_converter_angle_to_pix _ e [] eq_refl eq_refl Hd).
  unfold bind, lift, make_converter, bind.
  subst e. cbn [backward]. unfold bind. rewrite Hang.
  unfold lift, py_float, ret. cbn [value scalar items].
  rewrite !ndarray_map_map. reflexivity.
Qed.

(** C8, as stated, fails: on an object whose header has no CDELT2 card,
    and on one whose header is [None], a Quantity in degrees (a unit the
    angular rule converts) yields neither a value in pixels nor a
    UnitConversionError: the failure of [ang_size] comes out instead. *)
Lemma to_pixel_angle_without_pixel_scale :
  to_pixel (PyQuantity (mkQuantity (scalar (Fin 1)) deg))
           (with_header new_instance (PyHeader [("NAXIS", CInt 2)])) =
    (Err (Exception KeyError "Keyword 'CDELT2' not found."),
     with_header new_instance (PyHeader [("NAXIS", CInt 2)])) /\
  to_pixel (PyQuantity (mkQuantity (scalar (Fin 1)) deg))
           (with_header flagged_off PyNone) =
    (Err (Exception TypeError "'NoneType' object is not subscriptable"),
     with_header flagged_off PyNone).
Proof. split; reflexivity. Qed.

(** C8, amended.  [to_pixel] raises TypeError for every value that is no
    Quantity, and UnitConversionError for every Quantity whose unit is
    neither a pixel count nor an angle.  A Quantity in a pixel unit comes
    back rescaled to pixels, whatever the header.  A Quantity in a unit of
    angle comes back as its value in degrees divided by [ang_size], in
    pixels, when [ang_size] can be read; when reading [ang_size] fails,
    that failure is the outcome.  The object is unchanged throughout. *)
Theorem to_pixel_spec : forall (self : instance) (val : pyobj),
  match val with
  | PyQuantity q =>
      if is_equivalent (unit q) pix then
        to_pixel val self =
        (Ok (mkQuantity
               (ndarray_map (fun x => fmul (Fin (scale (unit q) / scale pix)) x)
                            (value q)) pix), self)
      else if is_equivalent (unit q) deg then
        (forall f,
            ang_size self = (Ok (mkQuantity (scalar f) deg), self) ->
            to_pixel val self =
            (Ok (mkQuantity
                   (ndarray_map
                      (fun x => fmul (fdiv (fdiv x (Fin (scale deg / scale (unit q)))) f)
                                     (Fin (scale pix / scale pix)))
                      (value q)) pix), self)) /\
        (forall e,
            ang_size self = (Err e, self) -> to_pixel val self = (Err e, self))
      else
        to_pixel val self =
        (Err (Exception UnitConversionError "units are not convertible"), self)
  | _ =>
      to_pixel val self =
      (Err (Exception TypeError "value must be an astropy Quantity object."),
       self)
  end.
Proof.
  intros self val. destruct val; try reflexivity.
  destruct (is_equivalent (unit q) pix) eqn:Hp;
    [|destruct (is_equivalent (unit q) deg) eqn:Hd; [split|]].
  - unfold to_pixel, angular_equiv, Quantity_to, bind, ret, lift.
    unfold get_converter. rewrite (unit_to_equivalent _ _ Hp). reflexivity.
  - intros f Hang. exact (to_pixel_of_angle self q f Hd Hang).
  - intros err Hang. unfold to_pixel, angular_equiv.
    match goal with
    | |- context [ret [?e0]] => set (e := e0)
    end.
    change ((eqs <- ret [e] ;; Quantity_to q pix eqs) self)
      with (Quantity_to q pix [e] self).
    unfold Quantity_to.
    rewrite (get_converter_angle_to_pix _ e [] eq_refl eq_refl Hd).
    unfold bind, lift, make_converter, bind.
    subst e. cbn [backward]. unfold bind. rewrite Hang. reflexivity.
  - unfold to_pixel, angular_equiv.
    match goal with
    | |- context [ret [?e0]] => set (e := e0)
    end.
    change ((eqs <- ret [e] ;; Quantity_to q pix eqs) self)
      with (Quantity_to q pix [e] self).
    unfold Quantity_to.
    rewrite (get_converter_not_convertible _ e eq_refl eq_refl Hp Hd).
    reflexivity.
Qed.

Lemma to_pixel_spec_witness :
  to_pixel (PyQuantity (mkQuantity (scalar (Fin 1)) deg))
           (with_header new_instance (PyHeader sample_header)) =
  (Ok (mkQuantity
         (scalar (fmul (fdiv (fdiv (Fin 1) (Fin (scale deg / scale deg)))
                             (Fin (Qabs (1 # 100))))
                       (Fin (scale pix / scale pix)))) pix),
   with_header new_instance (PyHeader sample_header)).
Proof.
  exact (proj1 (to_pixel_spec
                  (with_header new_instance (PyHeader sample_header))
                  (PyQuantity (mkQuantity (scalar (Fin 1)) deg)))
               (Fin (Qabs (1 # 100))) eq_refl).
Defined.

Lemma ang_size_of_card self h c f :
  _header self = Some (PyHeader h) ->
  Header_getitem h "CDELT2" = Ok c ->
  np_abs c = Ok f ->
  ang_size self = (Ok (mkQuantity (scalar f) deg), self).
Proof.
  intros Hh Hc Ha. rewrite ang_size_eval, Hh. cbn [py_getitem].
  rewrite Hc, Ha. reflexivity.
Qed.



(* ------------------------------------------------------------------ *)
(** ** The physical size of a pixel *)
(* ------------------------------------------------------------------ *)

(** Under [dimensionless_angles()] the product of an angle unit [g] and
    any unit [u] converts to [u]: the converter divides by the scale of
    [u / (g u)], which is the reciprocal of the scale of [g]. *)
Lemma get_converter_dimensionless (g u : UnitBase) :
  bases g = bases rad ->
  exists s1,
    get_converter (S := instance) (unit_mul g u) u dimensionless_angles =
      Ok (make_converter s1 (fun x => ret x) 1) /\
    s1 == / scale g.
Proof.
  intros Hg. destruct g as [gn gd gb]. cbn [bases] in Hg. subst gb.
  destruct u as [un ud [l t m a p]].
  exists (scale (unit_div (Unit un ud (Dims l t m a p))
                          (unit_mul (Unit gn gd (bases rad))
                                    (Unit un ud (Dims l t m a p))))
          * Qpower (/ scale rad) (-1)).
  split.
  - unfold get_converter, unit_to.
    assert (E1 : dims_eqb
                   (bases (unit_mul (Unit gn gd (bases rad))
                                    (Unit un ud (Dims l t m a p))))
                   (bases (Unit un ud (Dims l t m a p))) = false).
    { match goal with |- ?b = false => destruct b eqn:E end;
        [|reflexivity].
      apply dims_eqb_eq in E. apply (f_equal d_angle) in E.
      unfold unit_mul, rad, dims_add in E.
      cbn [bases d_length d_time d_mass d_angle d_pixel] in E. lia. }
    rewrite E1. unfold dimensionless_angles. cbn [apply_equivalencies tunit funit forward].
    unfold decompose_in.
    assert (Ek : dims_dot
                   (bases (unit_div (Unit un ud (Dims l t m a p))
                             (unit_mul (Unit gn gd (bases rad))
                                       (Unit un ud (Dims l t m a p)))))
                   (bases rad) = (-1)%Z).
    { unfold dims_dot, unit_div, unit_mul, dims_sub, dims_add, rad.
      cbn [bases d_length d_time d_mass d_angle d_pixel]. lia. }
    rewrite Ek.
    assert (Ec : ((dims_dot (bases rad) (bases rad) =? 1)%Z &&
                  (dims_sum (bases rad) =? 1)%Z &&
                  dims_eqb (dims_scal (-1) (bases rad))
                    (bases (unit_div (Unit un ud (Dims l t m a p))
                              (unit_mul (Unit gn gd (bases rad))
                                        (Unit un ud (Dims l t m a p))))))%bool
                 = true).
    { apply andb_true_iff. split; [reflexivity|].
      apply dims_eqb_eq.
      unfold dims_scal, unit_div, unit_mul, dims_sub, dims_add, rad.
      cbn [bases d_length d_time d_mass d_angle d_pixel]. f_equal; lia. }
    rewrite Ec. reflexivity.
  - unfold scale, unit_div, unit_mul. cbn [scale_num scale_den].
    change (Qpower (/ (Zpos (scale_num rad) # scale_den rad)) (-1)) with (1 # 1).
    unfold Qeq, Qinv, Qmult. cbn [Qnum Qden].
    rewrite !Pos2Z.inj_mul. ring.
Qed.

(** C4.  With a header carrying CDELT2 and a distance assigned,
    [distance_size] is [ang_size * distance] read in the unit of the
    distance with angles taken as dimensionless: each value is the pixel
    scale times the distance value times the radians in a degree, and the
    unit is the one of the distance.  In particular, for a pixel scale of
    0.01 deg and a distance of 100 pc it is the scalar length
    (0.01 deg in radians) times 100, in parsecs. *)
Theorem distance_size_spec :
  (forall (self : instance) (h : Header) (c : card_value) (a : fnum)
          (d : Quantity),
      _header self = Some (PyHeader h) ->
      Header_getitem h "CDELT2" = Ok c ->
      np_abs c = Ok a ->
      _distance self = Some d ->
      exists r,
        distance_size self = (Ok r, self) /\
        quantity_eq r
          (mkQuantity
             (ndarray_map (fun x => fmul (fmul a x) (Fin (scale deg)))
                          (value d))
             (unit d))) /\
  (exists r,
      distance_size
        (with_distance (with_header new_instance (PyHeader sample_header))
                       (parsecs 100)) =
        (Ok r, with_distance (with_header new_instance (PyHeader sample_header))
                             (parsecs 100)) /\
      isscalar r = true /\
      quantity_eq r (parsecs ((1 # 100) * scale deg * 100))).
Proof.
  assert (General :
    forall (self : instance) (h : Header) (c : card_value) (a : fnum)
           (d : Quantity),
      _header self = Some (PyHeader h) ->
      Header_getitem h "CDELT2" = Ok c ->
      np_abs c = Ok a ->
      _distance self = Some d ->
      exists r,
        distance_size self = (Ok r, self) /\
        quantity_eq r
          (mkQuantity
             (ndarray_map (fun x => fmul (fmul a x) (Fin (scale deg)))
                          (value d))
             (unit d))).
  { intros self h c a d Hh Hc Ha Hd.
    pose proof (ang_size_of_card _ _ _ _ Hh Hc Ha) as Hang.
    destruct (get_converter_dimensionless deg (unit d) eq_refl)
      as (s1 & Hconv & Hs1).
    unfold distance_size, distance. unfold bind at 1. rewrite Hang.
    unfold bind at 1. rewrite (getattr_some _ _ _ _ Hd).
    unfold bind at 1. unfold lift at 1.
    change (Quantity_mul (mkQuantity (scalar a) deg) d)
      with (Ok (mkQuantity (ndarray_map (fmul a) (value d))
                           (unit_mul deg (unit d)))).
    unfold bind at 1. rewrite (getattr_some _ _ _ _ Hd).
    unfold Quantity_to. cbn [unit value]. rewrite Hconv.
    unfold bind, lift, make_converter, bind, ret.
    eexists. split; [reflexivity|].
    split; [|reflexivity]. cbn [value].
    rewrite !ndarray_map_map. apply ndarray_map_feq. intros x.
    apply fdiv_reciprocal; [apply scale_pos | exact Hs1]. }
  split; [exact General|].
  destruct (General
              (with_distance (with_header new_instance (PyHeader sample_header))
                             (parsecs 100))
              sample_header (CFloat (Fin (1 # 100))) (Fin (Qabs (1 # 100)))
              (parsecs 100) eq_refl eq_refl eq_refl eq_refl)
    as (r & Hr & Hv & Hu).
  exists r. split; [exact Hr|].
  destruct r as [[sh it] ru]. cbn [value unit] in *.
  destruct Hv as [Hsh Hit]. cbn [shape items ndarray_map parsecs scalar map] in *.
  subst sh ru. split; [reflexivity|].
  split; [|reflexivity]. split; [reflexivity|]. cbn [items shape value parsecs scalar].
  inversion Hit as [|x y xs ys Hxy Hrest]; subst. inversion Hrest; subst.
  constructor; [|constructor].
  destruct x; simpl in Hxy |- *; try contradiction.
  rewrite Hxy. reflexivity.
Qed.

Lemma distance_size_spec_witness :
  exists r,
    distance_size
      (with_distance (with_header new_instance (PyHeader sample_header))
                     (parsecs 100)) =
      (Ok r, with_distance (with_header new_instance (PyHeader sample_header))
                           (parsecs 100)) /\
    quantity_eq r
      (mkQuantity
         (ndarray_map (fun x => fmul (fmul (Fin (Qabs (1 # 100))) x)
                                     (Fin (scale deg)))
                      (value (parsecs 100)))
         pc).
Proof.
  exact (proj1 distance_size_spec
           (with_distance (with_header new_instance (PyHeader sample_header))
                          (parsecs 100))
           sample_header (CFloat (Fin (1 # 100))) (Fin (Qabs (1 # 100)))
           (parsecs 100) eq_refl eq_refl eq_refl eq_refl).
Defined.

(* ================================================================== *)
(** * Further properties of the class *)
(* ================================================================== *)

(* ------------------------------------------------------------------ *)
(** ** Reading never writes *)
(* ------------------------------------------------------------------ *)

Lemma read_only_ret {A} (a : A) : read_only (ret a).
Proof. intros self. reflexivity. Qed.

Lemma read_only_lift {A} (r : result A) : read_only (lift r).
Proof. intros self. reflexivity. Qed.

Lemma read_only_raise {A} c msg : read_only (@raise instance A c msg).
Proof. intros self. reflexivity. Qed.

Lemma read_only_getattr {A} (f : instance -> option A) name :
  read_only (getattr f name).
Proof. intros self. apply getattr_state. Qed.

Lemma read_only_bind {A B} (c : M instance A) (k : A -> M instance B) :
  read_only c -> (forall a, read_only (k a)) -> read_only (bind c k).
Proof.
  intros Hc Hk self. unfold bind. specialize (Hc self).
  destruct (c self) as [[a|e] s']; simpl in Hc; subst s'.
  - apply Hk.
  - reflexivity.
Qed.

Lemma make_converter_read_only s1 (f : converter instance) s2 :
  (forall x, read_only (f x)) ->
  forall v, read_only (make_converter s1 f s2 v).
Proof.
  intros Hf v. unfold make_converter. apply read_only_bind.
  - apply Hf.
  - intros r. apply read_only_ret.
Qed.

Lemma apply_equivalencies_read_only u other eqs conv :
  Forall read_only_rule eqs ->
  apply_equivalencies u other eqs = Ok conv ->
  forall v, read_only (conv v).
Proof.
  intros Hall. induction Hall as [|e rest [Hfw Hbw] _ IH]; simpl.
  - discriminate.
  - destruct (tunit e) as [t|].
    + destruct (unit_to (funit e) u) as [s1|].
      * destruct (unit_to t other) as [s2|].
        -- intros E. injection E as <-.
           apply make_converter_read_only, Hfw.
        -- destruct (unit_to t u) as [s1'|]; [|exact IH].
           destruct (unit_to (funit e) other) as [s2'|]; [|exact IH].
           intros E. injection E as <-.
           apply make_converter_read_only, Hbw.
      * destruct (unit_to t u) as [s1'|]; [|exact IH].
        destruct (unit_to (funit e) other) as [s2'|]; [|exact IH].
        intros E. injection E as <-.
        apply make_converter_read_only, Hbw.
    + destruct (decompose_in (funit e) (unit_div other u)) as [s1|];
        [|exact IH].
      intros E. injection E as <-.
      apply make_converter_read_only, Hfw.
Qed.

Lemma Quantity_to_read_only q other eqs :
  Forall read_only_rule eqs -> read_only (Quantity_to q other eqs).
Proof.
  intros Hall. unfold Quantity_to, get_converter.
  destruct (unit_to (unit q) other) as [s|].
  - intros self. reflexivity.
  - destruct (apply_equivalencies (unit q) other eqs) as [conv|e] eqn:E.
    + pose proof (apply_equivalencies_read_only _ _ _ _ Hall E) as Hconv.
      intros self. unfold bind, lift. specialize (Hconv (value q) self).
      destruct (conv (value q) self) as [[v|e] s']; simpl in Hconv; subst s';
        reflexivity.
    + intros self. reflexivity.
Qed.

Lemma ang_size_read_only : read_only ang_size.
Proof. intros self. apply ang_size_state. Qed.

Lemma scale_by_read_only (c : M instance Quantity)
      (op : fnum -> fnum -> fnum) x :
  read_only c ->
  read_only (s <- c ;; f <- lift (py_float (value s)) ;;
             ret (ndarray_map (fun e => op e f) x)).
Proof.
  intros Hc. apply read_only_bind; [exact Hc|]. intros s.
  apply read_only_bind; [apply read_only_lift|]. intros f.
  apply read_only_ret.
Qed.

Lemma angular_rule_read_only eqs self :
  angular_equiv self = (Ok eqs, self) -> Forall read_only_rule eqs.
Proof.
  unfold angular_equiv, ret. intros E. injection E as <-.
  constructor; [|constructor]. split; intros x; cbn [forward backward];
    apply scale_by_read_only, ang_size_read_only.
Qed.

Lemma dimensionless_angles_read_only :
  Forall read_only_rule (@dimensionless_angles instance).
Proof.
  constructor; [|constructor]. split; intros x; apply read_only_ret.
Qed.

Lemma to_pixel_read_only v : read_only (to_pixel v).
Proof.
  destruct v; try apply read_only_raise.
  intros self. unfold to_pixel.
  destruct (angular_equiv self) as [r s'] eqn:E.
  unfold angular_equiv, ret in E. injection E as <- <-.
  unfold bind, angular_equiv, ret.
  apply Quantity_to_read_only.
  apply (angular_rule_read_only _ self). reflexivity.
Qed.

Lemma distance_size_read_only : read_only distance_size.
Proof.
  unfold distance_size.
  apply read_only_bind; [apply ang_size_read_only|]. intros a.
  apply read_only_bind; [apply read_only_getattr|]. intros d.
  apply read_only_bind; [apply read_only_lift|]. intros prod.
  apply read_only_bind; [apply read_only_getattr|]. intros d'.
  apply Quantity_to_read_only, dimensionless_angles_read_only.
Qed.

Lemma distance_rule_read_only eqs self :
  distance_equiv self = (Ok eqs, self) -> Forall read_only_rule eqs.
Proof.
  unfold distance_equiv, distance, bind, getattr, ret.
  destruct (_distance self) as [d|]; [|discriminate].
  intros E. injection E as <-.
  constructor; [|constructor]. split; intros x; cbn [forward backward];
    apply scale_by_read_only, distance_size_read_only.
Qed.

Lemma distance_equiv_read_only : read_only distance_equiv.
Proof.
  unfold distance_equiv.
  apply read_only_bind; [apply read_only_getattr|]. intros d.
  apply read_only_ret.
Qed.

(** X1.  Reading never writes: the three getters, [ang_size],
    [angular_equiv], [to_pixel], [distance_size] and [distance_equiv]
    leave the object exactly as it was, whether they return or raise, and
    so does every conversion function of the two rules. *)
Theorem reads_never_write : forall (self : instance) (v : pyobj),
  snd (header self) = self /\
  snd (data self) = self /\
  snd (distance self) = self /\
  snd (ang_size self) = self /\
  snd (to_pixel v self) = self /\
  snd (distance_size self) = self /\
  (forall eqs, angular_equiv self = (Ok eqs, self) ->
               Forall read_only_rule eqs) /\
  snd (angular_equiv self) = self /\
  (forall eqs, distance_equiv self = (Ok eqs, self) ->
               Forall read_only_rule eqs) /\
  snd (distance_equiv self) = self.
Proof.
  intros self v.
  split; [apply read_only_getattr|].
  split; [apply read_only_getattr|].
  split; [apply read_only_getattr|].
  split; [apply ang_size_read_only|].
  split; [apply to_pixel_read_only|].
  split; [apply distance_size_read_only|].
  split; [intros eqs; apply angular_rule_read_only|].
  split; [reflexivity|].
  split; [intros eqs; apply distance_rule_read_only|].
  apply distance_equiv_read_only.
Qed.

(* ------------------------------------------------------------------ *)
(** ** What the object can hold *)
(* ------------------------------------------------------------------ *)

Lemma header_setter_effect v self :
  snd (header_setter v self) = self \/
  (need_header_flag self = false /\
   snd (header_setter v self) = with_header self PyNone) \/
  (need_header_flag self = true /\ isinstance_Header v = true /\
   snd (header_setter v self) = with_header self v).
Proof.
  unfold header_setter, bind, read.
  destruct (need_header_flag self) eqn:F; simpl.
  - destruct (isinstance_Header v) eqn:I; simpl.
    + right. right. repeat split.
    + left. reflexivity.
  - right. left. split; reflexivity.
Qed.

Lemma data_setter_effect v self :
  snd (data_setter v self) = self \/
  (no_data_flag self = true /\
   snd (data_setter v self) = with_data self PyNone) \/
  (no_data_flag self = false /\ isinstance_ndarray v = true /\
   snd (data_setter v self) = with_data self v).
Proof.
  unfold data_setter, bind, read.
  destruct (no_data_flag self) eqn:F; simpl.
  - right. left. split; reflexivity.
  - destruct (isinstance_ndarray v) eqn:I; simpl.
    + right. right. repeat split.
    + left. reflexivity.
Qed.

Lemma distance_setter_effect v self :
  snd (distance_setter v self) = self \/
  (exists q, v = PyQuantity q /\ is_equivalent (unit q) pc = true /\
             isscalar q = true /\
             snd (distance_setter v self) = with_distance self q).
Proof.
  destruct v; try (left; reflexivity).
  unfold distance_setter.
  destruct (is_equivalent (unit q) pc) eqn:Hu; simpl; [|left; reflexivity].
  destruct (isscalar q) eqn:Hs; simpl; [|left; reflexivity].
  right. exists q. repeat split; assumption.
Qed.

Lemma header_setter_invariant f1 f2 v self :
  invariant f1 f2 self -> invariant f1 f2 (snd (header_setter v self)).
Proof.
  intros (Hwf & H1 & H2).
  destruct (header_setter_effect v self) as [E|[(F & E)|(F & I & E)]];
    rewrite E; [repeat split; assumption| |].
  - repeat split; try assumption.
    unfold well_formed, header_ok, data_ok, distance_ok in *.
    cbn [with_header _header _data _distance need_header_flag no_data_flag].
    rewrite F. apply andb_true_iff in Hwf. destruct Hwf as [Hwf Hd].
    apply andb_true_iff in Hwf. destruct Hwf as [_ Hda].
    rewrite Hda, Hd. reflexivity.
  - repeat split; try assumption.
    unfold well_formed, header_ok, data_ok, distance_ok in *.
    cbn [with_header _header _data _distance need_header_flag no_data_flag].
    rewrite F, I. apply andb_true_iff in Hwf. destruct Hwf as [Hwf Hd].
    apply andb_true_iff in Hwf. destruct Hwf as [_ Hda].
    rewrite Hda, Hd. reflexivity.
Qed.

Lemma data_setter_invariant f1 f2 v self :
  invariant f1 f2 self -> invariant f1 f2 (snd (data_setter v self)).
Proof.
  intros (Hwf & H1 & H2).
  destruct (data_setter_effect v self) as [E|[(F & E)|(F & I & E)]];
    rewrite E; [repeat split; assumption| |].
  - repeat split; try assumption.
    unfold well_formed, header_ok, data_ok, distance_ok in *.
    cbn [with_data _header _data _distance need_header_flag no_data_flag].
    rewrite F. apply andb_true_iff in Hwf. destruct Hwf as [Hwf Hd].
    apply andb_true_iff in Hwf. destruct Hwf as [Hh _].
    rewrite Hh, Hd. reflexivity.
  - repeat split; try assumption.
    unfold well_formed, header_ok, data_ok, distance_ok in *.
    cbn [with_data _header _data _distance need_header_flag no_data_flag].
    rewrite F, I. apply andb_true_iff in Hwf. destruct Hwf as [Hwf Hd].
    apply andb_true_iff in Hwf. destruct Hwf as [Hh _].
    rewrite Hh, Hd. reflexivity.
Qed.

Lemma distance_setter_invariant f1 f2 v self :
  invariant f1 f2 self -> invariant f1 f2 (snd (distance_setter v self)).
Proof.
  intros (Hwf & H1 & H2).
  destruct (distance_setter_effect v self) as [E|(q & _ & Hu & Hs & E)];
    rewrite E; [repeat split; assumption|].
  repeat split; try assumption.
  unfold well_formed, header_ok, data_ok, distance_ok in *.
  cbn [with_distance _header _data _distance need_header_flag no_data_flag].
  rewrite Hu, Hs. apply andb_true_iff in Hwf. destruct Hwf as [Hwf _].
  rewrite Hwf. reflexivity.
Qed.

(** Where [input_data_header] can leave the object: untouched, after the
    data assignment, or after the header assignment that follows it. *)
Lemma input_data_header_effect input_data d h self :
  snd (input_data_header input_data d h self) = self \/
  exists arr hdr,
    snd (input_data_header input_data d h self) =
    snd (header_setter hdr (snd (data_setter arr self))) \/
    snd (input_data_header input_data d h self) = snd (data_setter arr self).
Proof.
  unfold input_data_header, bind, lift.
  destruct (negb (is_None h)).
  - destruct (input_data d true) as [arr|e]; [|left; reflexivity].
    right. exists arr, h.
    destruct (data_setter arr self) as [[[]|e] s1]; cbn [snd].
    + left. reflexivity.
    + right. reflexivity.
  - destruct (input_data d false) as [r|e]; [|left; reflexivity].
    destruct (py_unpack2 r) as [[a b]|e]; [|left; reflexivity].
    right. exists a, b. cbn [fst snd].
    destruct (data_setter a self) as [[[]|e] s1]; cbn [snd].
    + left. reflexivity.
    + right. reflexivity.
Qed.

Lemma perform_invariant input_data f1 f2 c self :
  invariant f1 f2 self -> invariant f1 f2 (perform input_data c self).
Proof.
  intros Hinv. destruct c; cbn [perform].
  - apply header_setter_invariant, Hinv.
  - apply data_setter_invariant, Hinv.
  - apply distance_setter_invariant, Hinv.
  - destruct (input_data_header_effect input_data data0 header0 self)
      as [E|(arr & hdr & [E|E])]; rewrite E.
    + exact Hinv.
    + apply header_setter_invariant, data_setter_invariant, Hinv.
    + apply data_setter_invariant, Hinv.
  - rewrite ang_size_read_only. exact Hinv.
  - exact Hinv.
  - rewrite to_pixel_read_only. exact Hinv.
  - rewrite distance_size_read_only. exact Hinv.
  - rewrite distance_equiv_read_only. exact Hinv.
Qed.

Lemma perform_all_invariant input_data f1 f2 cs : forall self,
  invariant f1 f2 self -> invariant f1 f2 (perform_all input_data cs self).
Proof.
  induction cs as [|c cs IH]; intros self Hinv; [exact Hinv|].
  cbn [perform_all fold_left]. apply IH, perform_invariant, Hinv.
Qed.

Lemma fresh_invariant f1 f2 : invariant f1 f2 (fresh f1 f2).
Proof. repeat split. Qed.

(** X2.  Whatever calls are made on an object, in whatever order and
    with whatever arguments and loader, and whether they return or raise,
    the object stays well formed and keeps its two flags: a stored header
    is a [Header] when the statistic needs one and [None] when it does
    not, stored data is an ndarray instance or [None] when data is not
    used, and a stored distance is a scalar length. *)
Theorem calls_keep_well_formed :
  forall (input_data : pyobj -> bool -> result pyobj) (cs : list call)
         (need_header no_data : bool),
    well_formed (perform_all input_data cs (fresh need_header no_data))
      = true /\
    need_header_flag (perform_all input_data cs (fresh need_header no_data))
      = need_header /\
    no_data_flag (perform_all input_data cs (fresh need_header no_data))
      = no_data.
Proof.
  intros input_data cs f1 f2.
  exact (perform_all_invariant input_data f1 f2 cs _ (fresh_invariant f1 f2)).
Qed.

Lemma to_pixel_of_angle_err self q e :
  is_equivalent (unit q) deg = true ->
  ang_size self = (Err e, self) ->
  to_pixel (PyQuantity q) self = (Err e, self).
Proof.
  intros Hd Hang. unfold to_pixel, angular_equiv.
  match goal with
  | |- context [ret [?e0]] => set (r := e0)
  end.
  change ((eqs <- ret [r] ;; Quantity_to q pix eqs) self)
    with (Quantity_to q pix [r] self).
  unfold Quantity_to.
  rewrite (get_converter_angle_to_pix _ r [] eq_refl eq_refl Hd).
  unfold bind, lift, make_converter, bind.
  subst r. cbn [backward]. unfold bind. rewrite Hang. reflexivity.
Qed.

Lemma distance_size_ang_err self e :
  ang_size self = (Err e, self) -> distance_size self = (Err e, self).
Proof. intros Hang. unfold distance_size, bind. rewrite Hang. reflexivity. Qed.

(** X3.  A statistic that declares it needs no header can never convert:
    after any sequence of calls on an object created with
    [need_header_flag] disabled, the header read back is [None] (or the
    attribute is still missing), so [ang_size] raises TypeError or
    AttributeError, [to_pixel] fails on every quantity given in a unit of
    angle, and [distance_size] fails, whatever header was passed in. *)
Theorem no_header_no_conversion :
  forall (input_data : pyobj -> bool -> result pyobj) (cs : list call)
         (no_data : bool),
    let self := perform_all input_data cs (fresh false no_data) in
    (header self = (Ok PyNone, self) \/
     raised (header self) = Some AttributeError) /\
    (exists e, ang_size self = (Err e, self) /\
               (exn_cls e = TypeError \/ exn_cls e = AttributeError)) /\
    (forall q, is_equivalent (unit q) deg = true ->
               exists e, to_pixel (PyQuantity q) self = (Err e, self)) /\
    (exists e, distance_size self = (Err e, self)).
Proof.
  intros input_data cs no_data self.
  destruct (perform_all_invariant input_data false no_data cs _
              (fresh_invariant false no_data)) as (Hwf & Hf & _).
  fold self in Hwf, Hf.
  assert (Hh : _header self = None \/ _header self = Some PyNone).
  { unfold well_formed, header_ok in Hwf. rewrite Hf in Hwf.
    destruct (_header self) as [v|]; [|left; reflexivity].
    destruct v; try discriminate Hwf. right. reflexivity. }
  assert (Hang : exists e, ang_size self = (Err e, self) /\
                   (exn_cls e = TypeError \/ exn_cls e = AttributeError)).
  { rewrite ang_size_eval.
    destruct Hh as [-> | ->]; eexists; (split; [reflexivity|]);
      [right | left]; reflexivity. }
  split; [|split; [exact Hang|split]].
  - unfold header, getattr, raised.
    destruct Hh as [-> | ->]; [right | left]; reflexivity.
  - intros q Hq. destruct Hang as (e & He & _). exists e.
    apply to_pixel_of_angle_err; assumption.
  - destruct Hang as (e & He & _). exists e.
    apply distance_size_ang_err, He.
Qed.

(* ------------------------------------------------------------------ *)
(** ** Failures of [input_data_header] *)
(* ------------------------------------------------------------------ *)

(** X4.  When [input_data_header] fails before the data assignment is
    accepted, nothing is stored: a failure of the loader, a loader result
    that does not unpack into two values, and a resolved array that is no
    ndarray instance each leave the object as it was.  In the last case
    the error is the one of the data, whatever the header is. *)
Theorem input_data_header_fails_early :
  forall (input_data : pyobj -> bool -> result pyobj)
         (d h : pyobj) (self : instance),
    (forall e, input_data d (negb (is_None h)) = Err e ->
               input_data_header input_data d h self = (Err e, self)) /\
    (forall r e, is_None h = true -> input_data d false = Ok r ->
                 py_unpack2 r = Err e ->
                 input_data_header input_data d h self = (Err e, self)) /\
    (forall arr hdr,
        (is_None h = false /\ input_data d true = Ok arr) \/
        (is_None h = true /\ input_data d false = Ok (PySeq [arr; hdr])) ->
        no_data_flag self = false ->
        isinstance_ndarray arr = false ->
        input_data_header input_data d h self =
        (Err (Exception TypeError "Data is not a numpy array."), self)).
Proof.
  intros input_data d h self. split; [|split].
  - intros e He. unfold input_data_header.
    destruct (is_None h); cbn [negb] in *; unfold bind, lift; rewrite He;
      reflexivity.
  - intros r e Hh Hr He. unfold input_data_header. rewrite Hh. cbn [negb].
    unfold bind, lift. rewrite Hr, He. reflexivity.
  - intros arr hdr Hres Hflag Harr. unfold input_data_header.
    destruct Hres as [(Hh & Hr) | (Hh & Hr)]; rewrite Hh; cbn [negb];
      unfold bind at 1; unfold lift at 1; rewrite Hr.
    + unfold bind, data_setter, bind, read. rewrite Hflag, Harr. reflexivity.
    + unfold bind at 1. unfold lift. cbn [py_unpack2 fst snd].
      unfold bind, data_setter, bind, read. rewrite Hflag, Harr. reflexivity.
Qed.

Lemma input_data_header_fails_early_witness :
  input_data_header input_data_model (PyInt 7) PyNone new_instance =
    (Err (Exception TypeError "Input data is not of an accepted form."),
     new_instance) /\
  input_data_header input_data_model
      (PySeq [PyStr "map.fits"; PyHeader sample_header]) PyNone new_instance =
    (Err (Exception TypeError "Data is not a numpy array."), new_instance).
Proof.
  split.
  - exact (proj1 (input_data_header_fails_early input_data_model
                    (PyInt 7) PyNone new_instance) _ eq_refl).
  - exact (proj2 (proj2 (input_data_header_fails_early input_data_model
                    (PySeq [PyStr "map.fits"; PyHeader sample_header])
                    PyNone new_instance))
                 (PyStr "map.fits") (PyHeader sample_header)
                 (or_intror (conj eq_refl eq_refl)) eq_refl eq_refl).
Defined.

(** X5.  [input_data_header] is not atomic: the data is assigned before
    the header is checked, so when the resolved array is accepted and the
    header is then refused, the call raises the TypeError of the header
    and the object keeps the new data, with its header as before. *)
Theorem input_data_header_keeps_data_on_bad_header :
  forall (input_data : pyobj -> bool -> result pyobj)
         (d h arr hdr : pyobj) (self : instance),
    (is_None h = false /\ input_data d true = Ok arr /\ hdr = h) \/
    (is_None h = true /\ input_data d false = Ok (PySeq [arr; hdr])) ->
    no_data_flag self = false ->
    isinstance_ndarray arr = true ->
    need_header_flag self = true ->
    isinstance_Header hdr = false ->
    input_data_header input_data d h self =
    (Err (Exception TypeError
            "The header must be a astropy.io.fits.header.Header."),
     with_data self arr).
Proof.
  intros input_data d h arr hdr self Hres Hnd Harr Hnh Hhdr.
  unfold input_data_header.
  destruct Hres as [(Hh & Hr & ->) | (Hh & Hr)]; rewrite Hh; cbn [negb];
    unfold bind at 1; unfold lift at 1; rewrite Hr.
  - unfold bind at 1. unfold data_setter, bind, read.
    rewrite Hnd, Harr. cbn [negb store_data].
    unfold header_setter, bind, read.
    cbn [with_data need_header_flag]. rewrite Hnh, Hhdr. reflexivity.
  - unfold bind at 1. unfold lift. cbn [py_unpack2 fst snd].
    unfold bind at 1. unfold data_setter, bind, read.
    rewrite Hnd, Harr. cbn [negb store_data].
    unfold header_setter, bind, read.
    cbn [with_data need_header_flag]. rewrite Hnh, Hhdr. reflexivity.
Qed.

Lemma input_data_header_keeps_data_on_bad_header_witness :
  input_data_header input_data_model
      (PyNdarray sample_array) (PyStr "CDELT2 = 0.01") new_instance =
  (Err (Exception TypeError
          "The header must be a astropy.io.fits.header.Header."),
   with_data new_instance (PyNdarray sample_array)).
Proof.
  apply (input_data_header_keeps_data_on_bad_header input_data_model
           (PyNdarray sample_array) (PyStr "CDELT2 = 0.01")
           (PyNdarray sample_array) (PyStr "CDELT2 = 0.01") new_instance);
    try reflexivity.
  left. repeat split.
Defined.

(** X6.  After a successful [input_data_header], whatever the loader and
    the arguments, both attributes exist and can be read: the data is an
    ndarray instance, or [None] on a statistic that uses no data, and the
    header is a [Header], or [None] on a statistic that needs none. *)
Theorem input_data_header_success :
  forall (input_data : pyobj -> bool -> result pyobj)
         (d h : pyobj) (self self' : instance),
    input_data_header input_data d h self = (Ok tt, self') ->
    exists arr hdr,
      data self' = (Ok arr, self') /\
      header self' = (Ok hdr, self') /\
      (if no_data_flag self then arr = PyNone
       else isinstance_ndarray arr = true) /\
      (if need_header_flag self then isinstance_Header hdr = true
       else hdr = PyNone) /\
      _distance self' = _distance self.
Proof.
  intros input_data d h self self' Hok.
  assert (Hsets : exists a b s1,
             data_setter a self = (Ok tt, s1) /\
             header_setter b s1 = (Ok tt, self')).
  { unfold input_data_header in Hok.
    destruct (negb (is_None h)).
    - unfold bind at 1 in Hok. unfold lift in Hok.
      destruct (input_data d true) as [arr|e]; [|discriminate].
      unfold bind in Hok.
      destruct (data_setter arr self) as [[[]|e] s1] eqn:E1; [|discriminate].
      exists arr, h, s1. split; [exact E1 | exact Hok].
    - unfold bind at 1 in Hok. unfold lift in Hok.
      destruct (input_data d false) as [r|e]; [|discriminate].
      unfold bind at 1 in Hok.
      destruct (py_unpack2 r) as [[a b]|e]; [|discriminate].
      cbn [fst snd] in Hok. unfold bind in Hok.
      destruct (data_setter a self) as [[[]|e] s1] eqn:E1; [|discriminate].
      exists a, b, s1. split; [exact E1 | exact Hok]. }
  destruct Hsets as (a & b & s1 & Hd & Hh).
  unfold data_setter, bind, read in Hd.
  unfold header_setter, bind, read in Hh.
  destruct (no_data_flag self) eqn:Fd; cbn [negb] in Hd.
  - injection Hd as <-. cbn [with_data need_header_flag] in Hh.
    destruct (need_header_flag self) eqn:Fh; cbn [negb] in Hh.
    + destruct (isinstance_Header b) eqn:Ib; cbn [negb] in Hh;
        [|discriminate].
      injection Hh as <-. exists PyNone, b. repeat split. exact Ib.
    + injection Hh as <-. exists PyNone, PyNone. repeat split.
  - destruct (isinstance_ndarray a) eqn:Ia; cbn [negb] in Hd; [|discriminate].
    injection Hd as <-. cbn [with_data need_header_flag] in Hh.
    destruct (need_header_flag self) eqn:Fh; cbn [negb] in Hh.
    + destruct (isinstance_Header b) eqn:Ib; cbn [negb] in Hh;
        [|discriminate].
      injection Hh as <-. exists a, b. repeat split; assumption.
    + injection Hh as <-. exists a, PyNone. repeat split. exact Ia.
Qed.

Lemma input_data_header_success_witness :
  exists arr hdr,
    data (with_header (with_data new_instance (PyNdarray sample_array))
                      (PyHeader sample_header)) =
      (Ok arr, with_header (with_data new_instance (PyNdarray sample_array))
                           (PyHeader sample_header)) /\
    header (with_header (with_data new_instance (PyNdarray sample_array))
                        (PyHeader sample_header)) =
      (Ok hdr, with_header (with_data new_instance (PyNdarray sample_array))
                           (PyHeader sample_header)) /\
    isinstance_ndarray arr = true /\
    isinstance_Header hdr = true /\
    _distance (with_header (with_data new_instance (PyNdarray sample_array))
                           (PyHeader sample_header)) = None.
Proof.
  exact (input_data_header_success input_data_model
           (PyHDU sample_array sample_header) PyNone new_instance
           (with_header (with_data new_instance (PyNdarray sample_array))
                        (PyHeader sample_header)) eq_refl).
Defined.

(* ------------------------------------------------------------------ *)
(** ** The three attributes are independent *)
(* ------------------------------------------------------------------ *)

Lemma header_setter_outcome v self :
  fst (header_setter v self) =
  if need_header_flag self
  then if isinstance_Header v then Ok tt
       else Err (Exception TypeError
                   "The header must be a astropy.io.fits.header.Header.")
  else Ok tt.
Proof.
  unfold header_setter, bind, read.
  destruct (need_header_flag self); simpl; [|reflexivity].
  destruct (isinstance_Header v); reflexivity.
Qed.

Lemma data_setter_outcome v self :
  fst (data_setter v self) =
  if no_data_flag self then Ok tt
  else if isinstance_ndarray v then Ok tt
       else Err (Exception TypeError "Data is not a numpy array.").
Proof.
  unfold data_setter, bind, read.
  destruct (no_data_flag self); simpl; [reflexivity|].
  destruct (isinstance_ndarray v); reflexivity.
Qed.

Lemma header_setter_flags v self :
  need_header_flag (snd (header_setter v self)) = need_header_flag self /\
  no_data_flag (snd (header_setter v self)) = no_data_flag self.
Proof.
  destruct (header_setter_effect v self) as [E|[(_ & E)|(_ & _ & E)]];
    rewrite E; split; reflexivity.
Qed.

Lemma data_setter_flags v self :
  need_header_flag (snd (data_setter v self)) = need_header_flag self /\
  no_data_flag (snd (data_setter v self)) = no_data_flag self.
Proof.
  destruct (data_setter_effect v self) as [E|[(_ & E)|(_ & _ & E)]];
    rewrite E; split; reflexivity.
Qed.

Lemma distance_setter_flags v self :
  need_header_flag (snd (distance_setter v self)) = need_header_flag self /\
  no_data_flag (snd (distance_setter v self)) = no_data_flag self.
Proof.
  destruct (distance_setter_effect v self) as [E|(q & _ & _ & _ & E)];
    rewrite E; split; reflexivity.
Qed.

Lemma distance_setter_outcome_independent v s1 s2 :
  fst (distance_setter v s1) = fst (distance_setter v s2).
Proof.
  destruct v; try reflexivity. unfold distance_setter.
  destruct (is_equivalent (unit q) pc); simpl; [|reflexivity].
  destruct (isscalar q); reflexivity.
Qed.

(** X7.  The three attributes are independent.  Whether an assignment to
    [header], [data] or [distance] is accepted does not depend on what
    the other attributes hold or on assignments made to them before, and
    assignments to two different attributes leave the same object in
    either order. *)
Theorem setters_are_independent :
  forall (self : instance) (h d v : pyobj),
    (fst (header_setter h (snd (data_setter d self))) =
       fst (header_setter h self) /\
     fst (header_setter h (snd (distance_setter v self))) =
       fst (header_setter h self) /\
     fst (data_setter d (snd (header_setter h self))) =
       fst (data_setter d self) /\
     fst (data_setter d (snd (distance_setter v self))) =
       fst (data_setter d self) /\
     fst (distance_setter v (snd (header_setter h self))) =
       fst (distance_setter v self) /\
     fst (distance_setter v (snd (data_setter d self))) =
       fst (distance_setter v self)) /\
    (snd (data_setter d (snd (header_setter h self))) =
       snd (header_setter h (snd (data_setter d self))) /\
     snd (distance_setter v (snd (header_setter h self))) =
       snd (header_setter h (snd (distance_setter v self))) /\
     snd (distance_setter v (snd (data_setter d self))) =
       snd (data_setter d (snd (distance_setter v self)))).
Proof.
  intros self h d v. split.
  - rewrite !header_setter_outcome, !data_setter_outcome.
    rewrite (proj1 (data_setter_flags d self)).
    rewrite (proj1 (distance_setter_flags v self)).
    rewrite (proj2 (header_setter_flags h self)).
    rewrite (proj2 (distance_setter_flags v self)).
    repeat split; apply distance_setter_outcome_independent.
  - destruct self as [[] [] hh dd dist];
      unfold header_setter, data_setter, distance_setter, bind, read, raise,
             store_header, store_data, store_distance;
      cbn [need_header_flag no_data_flag negb fst snd];
      destruct (isinstance_Header h); destruct (isinstance_ndarray d);
      cbn [negb fst snd];
      (destruct v; try (repeat split; reflexivity));
      destruct (is_equivalent (unit q) pc); cbn [negb fst snd];
      try (repeat split; reflexivity);
      destruct (isscalar q); repeat split; reflexivity.
Qed.

(* ------------------------------------------------------------------ *)
(** ** The physical scale and its equivalency *)
(* ------------------------------------------------------------------ *)

(** Whatever [ang_size] returns is built from the absolute value of the
    card. *)
Lemma ang_size_ok_form self q s' :
  ang_size self = (Ok q, s') ->
  s' = self /\
  exists hdr v a,
    _header self = Some hdr /\ py_getitem hdr "CDELT2" = Ok v /\
    np_abs v = Ok a /\ q = mkQuantity (scalar a) deg.
Proof.
  rewrite ang_size_eval.
  destruct (_header self) as [hdr|]; [|discriminate].
  destruct (py_getitem hdr "CDELT2") as [v|e] eqn:Hv; [|discriminate].
  destruct (np_abs v) as [a|e] eqn:Ha; [|discriminate].
  intros E. injection E as <- <-. split; [reflexivity|].
  exists hdr, v, a. repeat split; assumption.
Qed.

(** [distance_size], computed: the converter of [dimensionless_angles()]
    divides the product by a scale [s1] that is the reciprocal of the
    radians in a degree. *)
Lemma distance_size_eval self a d :
  ang_size self = (Ok (mkQuantity (scalar a) deg), self) ->
  _distance self = Some d ->
  exists s1,
    s1 == / scale deg /\
    distance_size self =
    (Ok (mkQuantity
           (ndarray_map (fun x => fmul (fdiv (fmul a x) (Fin s1)) (Fin 1))
                        (value d))
           (unit d)), self).
Proof.
  intros Hang Hd.
  destruct (get_converter_dimensionless deg (unit d) eq_refl)
    as (s1 & Hconv & Hs1).
  exists s1. split; [exact Hs1|].
  unfold distance_size, distance. unfold bind at 1. rewrite Hang.
  unfold bind at 1. rewrite (getattr_some _ _ _ _ Hd).
  unfold bind at 1. unfold lift at 1.
  change (Quantity_mul (mkQuantity (scalar a) deg) d)
    with (Ok (mkQuantity (ndarray_map (fmul a) (value d))
                         (unit_mul deg (unit d)))).
  unfold bind at 1. rewrite (getattr_some _ _ _ _ Hd).
  unfold Quantity_to. cbn [unit value]. rewrite Hconv.
  unfold bind, lift, make_converter, bind, ret.
  rewrite !ndarray_map_map. reflexivity.
Qed.

(** X8.  The outcome of [distance_size] in full.  A failure of [ang_size]
    is its failure, whatever the distance; with [ang_size] available and
    no distance assigned it raises the AttributeError of [_distance];
    with both available it always succeeds, whatever the unit and the
    shape of the stored distance, and returns a quantity of that unit
    and that shape. *)
Theorem distance_size_outcome : forall (self : instance),
  match fst (ang_size self) with
  | Err e => distance_size self = (Err e, self)
  | Ok _ =>
      match _distance self with
      | None =>
          distance_size self =
          (Err (Exception AttributeError
                  "'BaseStatisticMixIn' object has no attribute '_distance'"),
           self)
      | Some d =>
          exists r, distance_size self = (Ok r, self) /\
                    unit r = unit d /\
                    shape (value r) = shape (value d)
      end
  end.
Proof.
  intros self. destruct (ang_size self) as [[q|e] s'] eqn:Hang; cbn [fst].
  - destruct (ang_size_ok_form _ _ _ Hang) as (-> & hdr & v & a & _ & _ & _ & ->).
    destruct (_distance self) as [d|] eqn:Hd.
    + destruct (distance_size_eval _ _ _ Hang Hd) as (s1 & _ & Hsize).
      eexists. split; [exact Hsize|]. split; reflexivity.
    + unfold distance_size, distance, getattr. unfold bind at 1.
      rewrite Hang. unfold bind. rewrite Hd. reflexivity.
  - pose proof (ang_size_state self) as Hs. rewrite Hang in Hs.
    cbn [snd] in Hs. subst s'. apply distance_size_ang_err, Hang.
Qed.

(** X9.  [distance_equiv] reads the distance when it is asked for and
    the header only when it is used.  With no distance assigned the
    request itself raises AttributeError; with a distance assigned it
    returns the one rule between pixels and the unit of the distance on
    every object, whatever its header, and a failure of [distance_size]
    is the failure of either conversion function when applied. *)
Theorem distance_equiv_reads_distance_first : forall (self : instance),
  match _distance self with
  | None =>
      distance_equiv self =
      (Err (Exception AttributeError
              "'BaseStatisticMixIn' object has no attribute '_distance'"),
       self)
  | Some d =>
      exists e,
        distance_equiv self = (Ok [e], self) /\
        funit e = pix /\ tunit e = Some (unit d) /\
        (forall err x,
            distance_size self = (Err err, self) ->
            forward e x self = (Err err, self) /\
            backward e x self = (Err err, self))
  end.
Proof.
  intros self. unfold distance_equiv, distance, getattr, bind, ret.
  destruct (_distance self) as [d|]; [|reflexivity].
  eexists. split; [reflexivity|]. split; [reflexivity|].
  split; [reflexivity|].
  intros err x Hsize. cbn [forward backward]. unfold bind.
  rewrite Hsize. split; reflexivity.
Qed.




(* ------------------------------------------------------------------ *)
(** ** Conversions compose *)
(* ------------------------------------------------------------------ *)

Lemma Qzero_compat a b : a == b -> Qzero a = Qzero b.
Proof.
  intros H. unfold Qzero.
  destruct (Qeq_bool a 0) eqn:Ea, (Qeq_bool b 0) eqn:Eb; try reflexivity.
  - apply Qeq_bool_iff in Ea. rewrite H in Ea.
    apply Qeq_bool_iff in Ea. congruence.
  - apply Qeq_bool_iff in Eb. rewrite <- H in Eb.
    apply Qeq_bool_iff in Eb. congruence.
Qed.

Lemma Qneg_compat a b : a == b -> Qneg a = Qneg b.
Proof. intros H. unfold Qneg. rewrite H. reflexivity. Qed.

Lemma fdiv_feq_l x y f : x =f= y -> fdiv x f =f= fdiv y f.
Proof.
  destruct x as [a|s|], y as [b|t|]; simpl; try contradiction;
    intros H; destruct f as [c|u|]; simpl; try exact I; try reflexivity.
  - rewrite (Qzero_compat _ _ H), (Qneg_compat _ _ H).
    destruct (Qzero c); [destruct (Qzero b); simpl; [exact I|reflexivity]|].
    simpl. rewrite H. reflexivity.
  - subst t. reflexivity.
Qed.

Lemma fmul_feq_l x y f : x =f= y -> fmul x f =f= fmul y f.
Proof.
  destruct x as [a|s|], y as [b|t|]; simpl; try contradiction;
    intros H; destruct f as [c|u|]; simpl; try exact I.
  - rewrite H. reflexivity.
  - rewrite (Qzero_compat _ _ H), (Qneg_compat _ _ H).
    destruct (Qzero b); simpl; [exact I|reflexivity].
  - subst t. destruct (Qzero c); simpl; [exact I|reflexivity].
  - subst t. reflexivity.
Qed.

Lemma fmul_one_l s x : s == 1 -> fmul (Fin s) x =f= x.
Proof.
  intros H. assert (P : 0 < s) by lra.
  destruct x as [q|b|]; simpl.
  - rewrite H. ring.
  - rewrite (Qzero_pos _ P), (Qneg_pos _ P). reflexivity.
  - exact I.
Qed.

(** The same angle written in two units: [x k] in the smaller unit and
    [x] in the one [k] times larger reduce to the same number of degrees. *)
Lemma rescale_value x k c1 c2 :
  0 < k -> 0 < c1 -> 0 < c2 -> c1 == c2 * k ->
  fdiv (fmul x (Fin k)) (Fin c1) =f= fdiv x (Fin c2).
Proof.
  intros Hk H1 H2 Hc. destruct x as [q|b|].
  - cbn [fmul]. rewrite !fdiv_Fin_nz by lra. simpl. rewrite Hc. field. lra.
  - rewrite (fmul_Inf_pos _ _ Hk), !fdiv_Inf_pos by assumption. reflexivity.
  - exact I.
Qed.

Lemma Quantity_to_ok_unit q other (eqs : list (equivalency instance))
      self r s' :
  Quantity_to q other eqs self = (Ok r, s') -> unit r = other.
Proof.
  unfold Quantity_to, bind, lift.
  destruct (get_converter (unit q) other eqs) as [conv|e]; [|discriminate].
  destruct (conv (value q) self) as [[v|e] s1]; [|discriminate].
  unfold ret. intros E. injection E as <- _. reflexivity.
Qed.

Lemma to_pixel_ok_unit v self r s' :
  to_pixel v self = (Ok r, s') -> unit r = pix.
Proof.
  destruct v; try discriminate. unfold to_pixel, angular_equiv.
  match goal with
  | |- context [ret [?e0]] => set (e := e0)
  end.
  change ((eqs <- ret [e] ;; Quantity_to q pix eqs) self)
    with (Quantity_to q pix [e] self).
  apply Quantity_to_ok_unit.
Qed.

Lemma to_pixel_of_pixels self q :
  is_equivalent (unit q) pix = true ->
  to_pixel (PyQuantity q) self =
  (Ok (mkQuantity
         (ndarray_map (fun x => fmul (Fin (scale (unit q) / scale pix)) x)
                      (value q)) pix), self).
Proof.
  intros Hp.
  unfold to_pixel, angular_equiv, Quantity_to, bind, ret, lift.
  unfold get_converter. rewrite (unit_to_equivalent _ _ Hp). reflexivity.
Qed.

(** X11.  [to_pixel] is idempotent: whatever it returns is a quantity in
    pixels, and giving that result to [to_pixel] again returns it with
    every value unchanged.  The second call succeeds on any object, as a
    quantity already in pixels is converted without reading the header. *)
Theorem to_pixel_idempotent :
  forall (self s' : instance) (v : pyobj) (r : Quantity),
    to_pixel v self = (Ok r, s') ->
    unit r = pix /\
    forall other : instance,
      exists r', to_pixel (PyQuantity r) other = (Ok r', other) /\
                 quantity_eq r' r.
Proof.
  intros self s' v r Hok.
  pose proof (to_pixel_ok_unit _ _ _ _ Hok) as Hu.
  split; [exact Hu|]. intros other.
  assert (Hp : is_equivalent (unit r) pix = true) by (rewrite Hu; reflexivity).
  eexists. split; [apply (to_pixel_of_pixels other r Hp)|].
  split; [|symmetry; exact Hu]. cbn [value].
  apply ndarray_map_id_feq. intros x. apply fmul_one_l.
  rewrite Hu. apply scale_ratio_self.
Qed.

Lemma to_pixel_idempotent_witness :
  exists r',
    to_pixel (PyQuantity (mkQuantity (scalar (Fin (7 # 2))) pix))
             new_instance = (Ok r', new_instance) /\
    quantity_eq r' (mkQuantity (scalar (Fin (7 # 2))) pix).
Proof.
  destruct (to_pixel_idempotent
              new_instance new_instance
              (PyQuantity (mkQuantity (scalar (Fin (7 # 2))) pix))
              (mkQuantity (scalar (Fin (1 * (7 # 2)))) pix) eq_refl)
    as [_ H].
  destruct (H new_instance) as (r' & Hr & Heq).
  exists r'. split; [exact Hr|].
  exact Heq.
Defined.

(** X12.  [to_pixel] does not depend on the unit an angle is written in:
    with [ang_size] available, the values [x k] given in one unit of
    angle and the values [x] given in the unit [k] times larger convert
    to the same number of pixels, value by value. *)
Theorem to_pixel_unit_independent :
  forall (self : instance) (v : ndarray) (u1 u2 : UnitBase) (k : Q)
         (f : fnum),
    is_equivalent u1 deg = true ->
    is_equivalent u2 deg = true ->
    0 < k ->
    scale u2 == k * scale u1 ->
    ang_size self = (Ok (mkQuantity (scalar f) deg), self) ->
    exists r1 r2,
      to_pixel (PyQuantity
                  (mkQuantity (ndarray_map (fun x => fmul x (Fin k)) v) u1))
               self = (Ok r1, self) /\
      to_pixel (PyQuantity (mkQuantity v u2)) self = (Ok r2, self) /\
      quantity_eq r1 r2.
Proof.
  intros self v u1 u2 k f H1 H2 Hk Hsc Hang.
  eexists. eexists.
  split;
    [apply (to_pixel_of_angle self
              (mkQuantity (ndarray_map (fun x => fmul x (Fin k)) v) u1)
              f H1 Hang)|].
  split; [apply (to_pixel_of_angle self (mkQuantity v u2) f H2 Hang)|].
  split; [|reflexivity]. cbn [value unit].
  rewrite ndarray_map_map. apply ndarray_map_feq. intros x.
  apply fmul_feq_l, fdiv_feq_l.
  apply rescale_value; try assumption; try apply scale_ratio_pos.
  pose proof (scale_pos u1). pose proof (scale_pos u2).
  rewrite Hsc. field. split; lra.
Qed.

Lemma to_pixel_unit_independent_witness :
  exists r1 r2,
    to_pixel (PyQuantity
                (mkQuantity
                   (ndarray_map (fun x => fmul x (Fin 3600))
                                (Ndarray [2%nat] [Fin 1; Fin (1 # 2)]))
                   arcsec))
             (with_header new_instance (PyHeader sample_header)) =
      (Ok r1, with_header new_instance (PyHeader sample_header)) /\
    to_pixel (PyQuantity
                (mkQuantity (Ndarray [2%nat] [Fin 1; Fin (1 # 2)]) deg))
             (with_header new_instance (PyHeader sample_header)) =
      (Ok r2, with_header new_instance (PyHeader sample_header)) /\
    quantity_eq r1 r2.
Proof.
  apply (to_pixel_unit_independent
           (with_header new_instance (PyHeader sample_header))
           (Ndarray [2%nat] [Fin 1; Fin (1 # 2)]) arcsec deg 3600
           (Fin (Qabs (1 # 100)))); reflexivity.
Defined.












